(** * Expense Tracker AI: the classification and budget-analytics pipeline

    A shallow embedding of [app.py]: the body of [if uploaded_file:] from the
    data frame returned by [pd.read_csv] to the list of advice strings.

    Conventions of the embedding.
    - Library functions whose code is not part of the repository are
      parameters of the sections below: [str.lower], [pd.to_datetime],
      Python's [float] on a string, matplotlib's [Axes.pie], and the
      summation routines of pandas.  Concrete instances for the examples
      follow the script.
    - Numbers come in two models.  The exact model takes an amount as the
      rational [Q] it denotes and adds without rounding; it carries the
      facts that do not depend on rounding (signs, order of keys, which
      rows are kept, which exception is raised).  The binary64 model
      ([float], the IEEE doubles of pandas) carries what rounding decides:
      the threshold of the detector, the values that rank the categories,
      and the comparison of sums taken in different orders.
    - The only not-a-number the exact model can reach, the mean of an
      empty series, is [None].
    - [st.*] calls append to a log of emitted outputs. *)

From Stdlib Require Import Bool ZArith QArith Lqa Lia.
From Stdlib Require Import Ascii String List Permutation Sorted.
From Stdlib Require Import Floats.

Set Warnings "-inexact-float".
Import ListNotations.

Local Open Scope string_scope.

(* ------------------------------------------------------------------ *)
(** * Strings: the [in] operator                                        *)
(* ------------------------------------------------------------------ *)

(** [needle in hay] on Python strings: [needle] occurs as a substring. *)
Fixpoint contains (needle hay : string) : bool :=
  String.prefix needle hay ||
  match hay with
  | EmptyString => false
  | String _ rest => contains needle rest
  end.

(* ------------------------------------------------------------------ *)
(** * Phase 3: categorization                                           *)
(* ------------------------------------------------------------------ *)

(** The values of the [Category] column. *)
Inductive category : Type :=
  | Food | Transport | Utilities | Shopping | Salary | Entertainment | Other.

Definition category_label (c : category) : string :=
  match c with
  | Food => "Food"
  | Transport => "Transport"
  | Utilities => "Utilities"
  | Shopping => "Shopping"
  | Salary => "Salary"
  | Entertainment => "Entertainment"
  | Other => "Other"
  end.

(** The seven labels, in the precedence order of the taxonomy. *)
Definition all_categories : list category :=
  [Food; Transport; Utilities; Shopping; Salary; Entertainment; Other].

(** The keyword groups as the specification words them: ordered pairs of a
    label and its keywords, the first group with a match wins. *)
Definition taxonomy : list (category * list string) :=
  [ (Food, ["zomato"; "swiggy"; "restaurant"]);
    (Transport, ["uber"; "ola"; "fuel"; "petrol"]);
    (Utilities, ["electricity"; "bill"; "internet"]);
    (Shopping, ["amazon"; "flipkart"; "shopping"; "big bazaar"]);
    (Salary, ["salary"; "income"]);
    (Entertainment, ["netflix"]) ].

Definition group_matches (text : string) (g : category * list string) : bool :=
  existsb (fun kw => contains kw text) (snd g).

Definition first_match (groups : list (category * list string))
    (text : string) : category :=
  match find (group_matches text) groups with
  | Some g => fst g
  | None => Other
  end.

Section Categorizer.

(** Python's [str.lower]. *)
Variable str_lower : string -> string.

(** [categorize], lines 23-38. *)
Definition categorize (description : string) : category :=
  let description := str_lower description in
  if contains "zomato" description || contains "swiggy" description
     || contains "restaurant" description then Food
  else if contains "uber" description || contains "ola" description
     || contains "fuel" description || contains "petrol" description
  then Transport
  else if contains "electricity" description || contains "bill" description
     || contains "internet" description then Utilities
  else if contains "amazon" description || contains "flipkart" description
     || contains "shopping" description || contains "big bazaar" description
  then Shopping
  else if contains "salary" description || contains "income" description
  then Salary
  else if contains "netflix" description then Entertainment
  else Other.

(** The specification's algorithm: lower-case, then first matching group. *)
Definition categorize_spec (description : string) : category :=
  first_match taxonomy (str_lower description).

End Categorizer.

(* ------------------------------------------------------------------ *)
(** * Series in the exact model: sums, means, group-by and sorting      *)
(* ------------------------------------------------------------------ *)

(** A pandas Series: index labels paired with values, in order. *)
Definition Series (K : Type) : Type := list (K * Q).

Definition index {K : Type} (s : Series K) : list K := map fst s.
Definition values {K : Type} (s : Series K) : list Q := map snd s.

(** [Series.sum] without rounding: 0 for an empty series. *)
Definition sum (l : list Q) : Q := fold_left Qplus l 0%Q.

(** [Series.mean] without rounding: not-a-number ([None]) for an empty
    series. *)
Definition mean (l : list Q) : option Q :=
  match l with
  | [] => None
  | _ :: _ => Some (sum l / inject_Z (Z.of_nat (length l)))%Q
  end.

(** Unary minus on a Series negates every value and keeps the index. *)
Definition neg_values {K : Type} (s : Series K) : Series K :=
  map (fun e => (fst e, (- snd e)%Q)) s.

Section GroupBy.

Context {K : Type}.

(** The order of the group keys: [groupby] sorts its keys, and [rank]
    places a key in that order. *)
Variable rank : K -> Z.

(** Adds [x] to the running sum of group [k], opening the group at its
    place in key order when it is new. *)
Fixpoint group_add (k : K) (x : Q) (acc : Series K) : Series K :=
  match acc with
  | [] => [(k, x)]
  | (k', s) :: rest =>
      match (rank k ?= rank k')%Z with
      | Lt => (k, x) :: acc
      | Eq => (k', (s + x)%Q) :: rest
      | Gt => (k', s) :: group_add k x rest
      end
  end.

(** [groupby(key)[col].sum()]: one entry per key, keys ascending, each
    value the sum of the group's values in row order. *)
Definition groupby_sum (l : list (K * Q)) : Series K :=
  fold_left (fun acc e => group_add (fst e) (snd e) acc) l [].

(** The index of a grouped series: strictly ascending in rank. *)
Definition keys_ascending (s : Series K) : Prop :=
  StronglySorted (fun a b => (rank a < rank b)%Z) (index s).

End GroupBy.



(** [Series.sort_values(ascending=True)].  pandas leaves the order of equal
    values to the sorting routine; here equal values keep their order. *)
Fixpoint sort_insert {K : Type} (e : K * Q) (s : Series K) : Series K :=
  match s with
  | [] => [e]
  | e' :: s' =>
      if Qle_bool (snd e) (snd e') then e :: s else e' :: sort_insert e s'
  end.

Fixpoint sort_values {K : Type} (s : Series K) : Series K :=
  match s with
  | [] => []
  | e :: s' => sort_insert e (sort_values s')
  end.

(** The lexicographic order of the category labels, which [groupby] uses. *)
Definition category_rank (c : category) : Z :=
  match c with
  | Entertainment => 0
  | Food => 1
  | Other => 2
  | Salary => 3
  | Shopping => 4
  | Transport => 5
  | Utilities => 6
  end.

(* ------------------------------------------------------------------ *)
(** * Data frames and the rows of the ledger                            *)
(* ------------------------------------------------------------------ *)

(** A value read from the CSV file: text, or a number when [read_csv] found
    the whole column numeric.  A number is held at its float64 value, the
    one line 19 works with. *)
Inductive value : Type :=
  | VStr (s : string)
  | VNum (x : Q).

(** A cell of the raw table; [None] is a missing value (NaN). *)
Definition cell : Type := option value.

(** The result of [pd.read_csv]: column names, and one list of cells per
    row holding one cell per column. *)
Record DataFrame : Type := {
  columns : list string;
  rows : list (list cell)
}.

Record Timestamp : Type := { year : Z; month : Z; day : Z }.

(** The values of the [Type] column. *)
Inductive txn_type : Type := Income | Expense.

(** Exceptions the script can raise.  [ValueError] carries the text that
    [float] rejected, and no text when a library call raises it. *)
Inductive exn : Type :=
  | KeyError (column : string)
  | ValueError (text : string)
  | AttributeError.

(** A row of [df] after line 41.  [Cells] keeps the values of the input
    row, extra columns included. *)
Record Row : Type := {
  Cells : list value;
  Date : Timestamp;
  Description : string;
  Amount : Q;
  Type_ : txn_type;
  Category : category;
  YearMonth : Z
}.

Fixpoint index_of (name : string) (cols : list string) : option nat :=
  match cols with
  | [] => None
  | c :: cols' =>
      if String.eqb c name then Some O
      else option_map S (index_of name cols')
  end.

(** The columns the script reads. *)
Definition required_columns : list string := ["Date"; "Description"; "Amount"].

Definition has_column (name : string) (df : DataFrame) : bool :=
  match index_of name (columns df) with
  | Some _ => true
  | None => false
  end.

(** [df[name]]: the position of the column, or [KeyError]. *)
Definition column_index (name : string) (df : DataFrame) : exn + nat :=
  match index_of name (columns df) with
  | Some i => inr i
  | None => inl (KeyError name)
  end.

Definition at_col (i : nat) (r : list value) : value := nth i r (VStr "").

(** A row without any missing value, as a list of values. *)
Fixpoint all_present (r : list cell) : option (list value) :=
  match r with
  | [] => Some []
  | None :: _ => None
  | Some v :: r' => option_map (cons v) (all_present r')
  end.

(** [df.dropna()], line 14: drops every row with a missing value in any
    column. *)
Fixpoint dropna (rs : list (list cell)) : list (list value) :=
  match rs with
  | [] => []
  | r :: rs' =>
      match all_present r with
      | Some vs => vs :: dropna rs'
      | None => dropna rs'
      end
  end.

Fixpoint mapM {A B : Type} (f : A -> exn + B) (l : list A) : exn + list B :=
  match l with
  | [] => inr []
  | a :: l' =>
      match f a with
      | inl e => inl e
      | inr b =>
          match mapM f l' with
          | inl e => inl e
          | inr bs => inr (b :: bs)
          end
      end
  end.

(** Line 20: ['Income' if x > 0 else 'Expense']. *)
Definition type_of (x : Q) : txn_type :=
  if Qlt_le_dec 0 x then Income else Expense.

(** The ordinal of the monthly period of a timestamp (months since
    1970-01); [astype(str)] renders it as YYYY-MM. *)
Definition to_period_M (d : Timestamp) : Z :=
  ((year d - 1970) * 12 + (month d - 1))%Z.

(* ------------------------------------------------------------------ *)
(** * Phases 1 and 2, lines 13-41: the loader                           *)
(* ------------------------------------------------------------------ *)

Section Loader.

Variable str_lower : string -> string.

(** [pd.to_datetime(..., errors='coerce')] on one value of the [Date]
    column; [None] is NaT. *)
Variable to_datetime : value -> option Timestamp.

(** Python's [float] on a string; [None] when it raises. *)
Variable to_float : string -> option Q.

(** Lines 17-18: parse the dates and drop the rows whose date is NaT. *)
Fixpoint dropna_date (i : nat) (rs : list (list value))
    : list (Timestamp * list value) :=
  match rs with
  | [] => []
  | r :: rs' =>
      match to_datetime (at_col i r) with
      | Some d => (d, r) :: dropna_date i rs'
      | None => dropna_date i rs'
      end
  end.

(** Line 19, [astype(float)] on one value: a number stays, a string goes
    through [float], which raises [ValueError] on text that is no number. *)
Definition astype_float (v : value) : exn + Q :=
  match v with
  | VNum x => inr x
  | VStr s =>
      match to_float s with
      | Some x => inr x
      | None => inl (ValueError s)
      end
  end.

Definition with_amount (j : nat) (e : Timestamp * list value)
    : exn + (Timestamp * list value * Q) :=
  match astype_float (at_col j (snd e)) with
  | inl err => inl err
  | inr x => inr (e, x)
  end.

(** Lines 20, 40 and 41 on one row: [categorize] calls [.lower()] on the
    description, which a number does not have. *)
Definition with_category (k : nat) (e : Timestamp * list value * Q)
    : exn + Row :=
  let '(d, r, x) := e in
  match at_col k r with
  | VStr s =>
      inr {| Cells := r; Date := d; Description := s; Amount := x;
             Type_ := type_of x; Category := categorize str_lower s;
             YearMonth := to_period_M d |}
  | VNum _ => inl AttributeError
  end.

(** A row of the raw table passes lines 14-18 when no cell of it is
    missing and the value in the [Date] column parses. *)
Definition row_survives (i : nat) (r : list cell) : bool :=
  match all_present r with
  | Some vs =>
      match to_datetime (at_col i vs) with
      | Some _ => true
      | None => false
      end
  | None => false
  end.

(** Lines 13-41.  Each column is looked up when its line runs, and each
    whole-column conversion ends before the next line starts. *)
Definition load (raw : DataFrame) : exn + list Row :=
  let df := dropna (rows raw) in
  match column_index "Date" raw with
  | inl e => inl e
  | inr i =>
      let df := dropna_date i df in
      match column_index "Amount" raw with
      | inl e => inl e
      | inr j =>
          match mapM (with_amount j) df with
          | inl e => inl e
          | inr df =>
              match column_index "Description" raw with
              | inl e => inl e
              | inr k => mapM (with_category k) df
              end
          end
      end
  end.

End Loader.

(* ------------------------------------------------------------------ *)
(** * Phases 4-6, lines 47-117: aggregates, detector, advisor           *)
(* ------------------------------------------------------------------ *)

Definition is_income (r : Row) : bool :=
  match Type_ r with Income => true | Expense => false end.

Definition is_expense (r : Row) : bool :=
  match Type_ r with Income => false | Expense => true end.

(** [df[df['Type'] == 'Expense']]. *)
Definition expense_df (df : list Row) : list Row := filter is_expense df.

Definition total_income (df : list Row) : Q :=
  sum (map Amount (filter is_income df)).

Definition total_expense (df : list Row) : Q :=
  (- sum (map Amount (filter is_expense df)))%Q.

Definition balance (df : list Row) : Q :=
  (total_income df - total_expense df)%Q.

(** Lines 57-58. *)
Definition monthly_expense (df : list Row) : Series Z :=
  neg_values
    (groupby_sum (fun m => m)
       (map (fun r => (YearMonth r, Amount r)) (expense_df df))).

(** Lines 70-71 and again 97-98. *)
Definition category_expense (df : list Row) : Series category :=
  neg_values
    (sort_values
       (groupby_sum category_rank
          (map (fun r => (Category r, Amount r)) (expense_df df)))).

(** The values of the [Status] column. *)
Inductive status : Type := OverspendingRisk | WithinBudget.

(** Lines 80-81; not-a-number when there is no month. *)
Definition avg_expense (monthly : Series Z) : option Q :=
  mean (values monthly).

Definition threshold (monthly : Series Z) : option Q :=
  option_map (fun avg => (avg * (12 # 10))%Q) (avg_expense monthly).

(** Line 86: [x > threshold]; a comparison with not-a-number is false. *)
Definition status_of (threshold : option Q) (x : Q) : status :=
  match threshold with
  | Some t => if Qlt_le_dec t x then OverspendingRisk else WithinBudget
  | None => WithinBudget
  end.

(** Lines 83-87: the columns Month, Expense and Status. *)
Definition prediction_df (monthly : Series Z) : list (Z * Q * status) :=
  map (fun e => (fst e, snd e, status_of (threshold monthly) (snd e)))
      monthly.

Definition at_risk (p : Z * Q * status) : bool :=
  match snd p with OverspendingRisk => true | WithinBudget => false end.

(** Line 99: [head(3)]. *)
Definition top_categories (df : list Row) : Series category :=
  firstn 3 (category_expense df).

(** Lines 106-117: the tip for one category. *)
Definition advice_for (c : category) : string :=
  match c with
  | Food =>
      "🍔 You’re spending a lot on food. Try cooking at home more often or setting a monthly dining budget."
  | Shopping =>
      "🛍️ High shopping bills detected. Consider limiting impulse buys or setting a wishlist before shopping."
  | Transport =>
      "🚗 Transport costs are high. Try carpooling, using public transport, or optimizing your routes."
  | Utilities =>
      "💡 Utilities seem high. Consider energy-saving habits or reviewing your internet/electricity plans."
  | Entertainment =>
      "📺 Subscriptions and entertainment are adding up. Cancel unused subscriptions or switch to cheaper plans."
  | Salary | Other =>
      "💡 Spending on **" ++ category_label c
        ++ "** is significant. Try to review if all those purchases were essential."
  end.

(** Lines 104-117. *)
Definition advice (df : list Row) : list string :=
  map advice_for (index (top_categories df)).

(* ------------------------------------------------------------------ *)
(** * The script: outputs in order, stopping at the first exception     *)
(* ------------------------------------------------------------------ *)

(** What the script hands to Streamlit and matplotlib.  Number formatting
    and drawing are theirs; the values are kept as computed. *)
Inductive output : Type :=
  | markdown (text : string)
  | dataframe (df : list Row)
  | metric (label : string) (value : Q)
  | line_plot (s : Series Z)
  | pie (s : Series category)
  | dataframe_prediction (p : list (Z * Q * status))
  | warning (text : string)
  | write (text : string)
  | dataframe_series (s : Series category)
  | success (text : string).

(** A run: its result or exception, and the outputs emitted so far. *)
Definition script (A : Type) : Type := ((exn + A) * list output)%type.

Definition ret {A : Type} (a : A) : script A := (inr a, []).

Definition bind {A B : Type} (m : script A) (f : A -> script B) : script B :=
  match m with
  | (inl e, out) => (inl e, out)
  | (inr a, out) => let (r, out') := f a in (r, (out ++ out')%list)
  end.

Definition lift {A : Type} (r : exn + A) : script A := (r, []).

Definition emit (o : output) : script unit := (inr tt, [o]).

Definition emit_all (os : list output) : script unit := (inr tt, os).

Notation "x <- m ;; k" := (bind m (fun x => k))
  (at level 61, m at next level, right associativity).
Notation "m ;;; k" := (bind m (fun _ => k))
  (at level 61, right associativity).

(** The values the run computes. *)
Record Analysis : Type := {
  a_total_income : Q;
  a_total_expense : Q;
  a_balance : Q;
  a_monthly_expense : Series Z;
  a_category_expense : Series category;
  a_prediction : list (Z * Q * status);
  a_advice : list string
}.

Definition analyse (df : list Row) : Analysis :=
  {| a_total_income := total_income df;
     a_total_expense := total_expense df;
     a_balance := balance df;
     a_monthly_expense := monthly_expense df;
     a_category_expense := category_expense df;
     a_prediction := prediction_df (monthly_expense df);
     a_advice := advice df |}.

Section Script.

Variable str_lower : string -> string.
Variable to_datetime : value -> option Timestamp.
Variable to_float : string -> option Q.

(** [ax2.pie(category_sum, ...)], line 74: the exception it raises on a
    series, or [None] when it returns. *)
Variable ax_pie : Series category -> option exn.

(** Lines 73-76: the figure is shown only once [ax2.pie] has returned. *)
Definition pie_chart (s : Series category) : script unit :=
  match ax_pie s with
  | Some e => lift (inl e)
  | None => emit (pie s)
  end.

(** Lines 13-120, the body of [if uploaded_file:]. *)
Definition run (raw : DataFrame) : script Analysis :=
  df <- lift (load str_lower to_datetime to_float raw) ;;
  emit (markdown "### 📊 Cleaned & Categorized Data") ;;;
  emit (dataframe df) ;;;
  emit (metric "Total Income" (total_income df)) ;;;
  emit (metric "Total Expense" (total_expense df)) ;;;
  emit (metric "Net Balance" (balance df)) ;;;
  emit (markdown "### 🗕 Monthly Expense Trend") ;;;
  emit (line_plot (monthly_expense df)) ;;;
  emit (markdown "### 👁 Expense by Category (Pie Chart)") ;;;
  pie_chart (category_expense df) ;;;
  emit (markdown "### 🧮 Overspending Prediction") ;;;
  let prediction := prediction_df (monthly_expense df) in
  emit (dataframe_prediction prediction) ;;;
  (if existsb at_risk prediction
   then emit (warning "⚠️ Warning: You are at risk of overspending in some months.")
   else ret tt) ;;;
  emit (markdown "### 🤖 Smart Budget Advice") ;;;
  emit (write "🧾 Top Spending Categories:") ;;;
  emit (dataframe_series (top_categories df)) ;;;
  emit_all (map success (advice df)) ;;;
  ret (analyse df).

End Script.

(* ------------------------------------------------------------------ *)
(** * Concrete library instances and sample inputs                      *)
(* ------------------------------------------------------------------ *)

(** [str.lower] on ASCII text. *)
Definition ascii_lower (c : ascii) : ascii :=
  let n := nat_of_ascii c in
  if ((65 <=? n) && (n <=? 90))%nat then ascii_of_nat (n + 32) else c.

Fixpoint lower_ascii (s : string) : string :=
  match s with
  | EmptyString => EmptyString
  | String c s' => String (ascii_lower c) (lower_ascii s')
  end.

Definition digit_of (c : ascii) : option Z :=
  let n := Z.of_nat (nat_of_ascii c) in
  if ((48 <=? n) && (n <=? 57))%Z then Some (n - 48)%Z else None.

Fixpoint digits_value (acc : Z) (s : string) : option Z :=
  match s with
  | EmptyString => Some acc
  | String c s' =>
      match digit_of c with
      | Some d => digits_value (10 * acc + d)%Z s'
      | None => None
      end
  end.

Definition natural_of_string (s : string) : option Z :=
  match s with
  | EmptyString => None
  | String _ _ => digits_value 0 s
  end.

(** [float] on the decimal integers, with an optional minus sign. *)
Definition float_of_integer (s : string) : option Q :=
  match s with
  | String "-" s' => option_map (fun z => inject_Z (- z)) (natural_of_string s')
  | _ => option_map inject_Z (natural_of_string s)
  end.

(** [pd.to_datetime] on ISO dates, YYYY-MM-DD. *)
Definition iso_datetime (v : value) : option Timestamp :=
  match v with
  | VNum _ => None
  | VStr s =>
      if (String.length s =? 10)%nat
         && String.eqb (substring 4 1 s) "-"
         && String.eqb (substring 7 1 s) "-"
      then
        match natural_of_string (substring 0 4 s),
              natural_of_string (substring 5 2 s),
              natural_of_string (substring 8 2 s) with
        | Some y, Some m, Some d =>
            if ((1 <=? m) && (m <=? 12) && (1 <=? d) && (d <=? 31))%Z
            then Some {| year := y; month := m; day := d |}
            else None
        | _, _, _ => None
        end
      else None
  end.

Definition sample_load : DataFrame -> exn + list Row :=
  load lower_ascii iso_datetime float_of_integer.

(** [Axes.pie] of recent matplotlib: it refuses a negative wedge, and a
    series, empty or not, whose wedges do not add up to more than zero. *)
Definition pie_recent (s : Series category) : option exn :=
  if existsb (fun v => negb (Qle_bool 0 v)) (values s) then Some (ValueError "")
  else if Qle_bool (sum (values s)) 0 then Some (ValueError "")
  else None.

(** [Axes.pie] of older matplotlib: it refuses a negative wedge only. *)
Definition pie_older (s : Series category) : option exn :=
  if existsb (fun v => negb (Qle_bool 0 v)) (values s) then Some (ValueError "")
  else None.

Definition sample_run : DataFrame -> script Analysis :=
  run lower_ascii iso_datetime float_of_integer pie_recent.

Definition sample_run_older : DataFrame -> script Analysis :=
  run lower_ascii iso_datetime float_of_integer pie_older.

Definition text (s : string) : cell := Some (VStr s).
Definition num (z : Z) : cell := Some (VNum (inject_Z z)).

(** The round-trip scenario of the specification. *)
Definition two_rows : DataFrame :=
  {| columns := ["Date"; "Description"; "Amount"];
     rows := [ [text "2024-01-05"; text "Zomato order"; num (-450)];
               [text "2024-01-20"; text "Salary credit"; num 50000] ] |}.

(** The ledger loaded from [two_rows]. *)
Definition zomato_row : Row :=
  {| Cells := [VStr "2024-01-05"; VStr "Zomato order"; VNum (inject_Z (-450))];
     Date := {| year := 2024; month := 1; day := 5 |};
     Description := "Zomato order";
     Amount := inject_Z (-450);
     Type_ := Expense;
     Category := Food;
     YearMonth := 648 |}.

Definition salary_row : Row :=
  {| Cells := [VStr "2024-01-20"; VStr "Salary credit"; VNum (inject_Z 50000)];
     Date := {| year := 2024; month := 1; day := 20 |};
     Description := "Salary credit";
     Amount := inject_Z 50000;
     Type_ := Income;
     Category := Salary;
     YearMonth := 648 |}.

Definition two_rows_ledger : list Row := [zomato_row; salary_row].

(** A valid row followed by a row whose amount is no number. *)
Definition bad_amount : DataFrame :=
  {| columns := ["Date"; "Description"; "Amount"];
     rows := [ [text "2024-01-05"; text "Zomato order"; text "-450"];
               [text "2024-01-06"; text "Uber trip"; text "abc"] ] |}.

(** The valid row of [bad_amount] alone. *)
Definition bad_amount_valid_part : DataFrame :=
  {| columns := ["Date"; "Description"; "Amount"];
     rows := [ [text "2024-01-05"; text "Zomato order"; text "-450"] ] |}.

(** A row complete in its required fields, with an empty extra column. *)
Definition missing_extra : DataFrame :=
  {| columns := ["Date"; "Description"; "Amount"; "Note"];
     rows := [ [text "2024-01-05"; text "Zomato order"; num (-450); text "lunch"];
               [text "2024-01-06"; text "Uber trip"; num (-120); None] ] |}.

(** The one row of [missing_extra] without a missing value. *)
Definition lunch_row : Row :=
  {| Cells := [VStr "2024-01-05"; VStr "Zomato order"; VNum (inject_Z (-450));
               VStr "lunch"];
     Date := {| year := 2024; month := 1; day := 5 |};
     Description := "Zomato order";
     Amount := inject_Z (-450);
     Type_ := Expense;
     Category := Food;
     YearMonth := 648 |}.

(** No [Amount] column. *)
Definition no_amount : DataFrame :=
  {| columns := ["Date"; "Description"];
     rows := [ [text "2024-01-05"; text "Zomato order"] ] |}.

(** No [Description] column, and an amount that is no number. *)
Definition no_description_bad_amount : DataFrame :=
  {| columns := ["Date"; "Amount"];
     rows := [ [text "2024-01-05"; text "abc"] ] |}.

(** Two rows whose amounts are no numbers. *)
Definition two_bad_amounts : DataFrame :=
  {| columns := ["Date"; "Description"; "Amount"];
     rows := [ [text "2024-01-05"; text "Zomato order"; text "abc"];
               [text "2024-01-06"; text "Uber trip"; text "xyz"] ] |}.

(** A header and no row. *)
Definition header_only : DataFrame :=
  {| columns := ["Date"; "Description"; "Amount"]; rows := [] |}.

(** Four months of expenses: 100, 100, 100 and 500. *)
Definition four_months : DataFrame :=
  {| columns := ["Date"; "Description"; "Amount"];
     rows := [ [text "2024-01-05"; text "Zomato order"; num (-100)];
               [text "2024-02-05"; text "Uber trip"; num (-100)];
               [text "2024-03-05"; text "Electricity bill"; num (-100)];
               [text "2024-04-05"; text "Amazon order"; num (-500)] ] |}.

(** A table whose Description column is numeric. *)
Definition numeric_description : DataFrame :=
  {| columns := ["Date"; "Description"; "Amount"];
     rows := [ [text "2024-01-05"; num 42; num (-450)] ] |}.

(* ------------------------------------------------------------------ *)
(** * Notions used to state the properties                              *)
(* ------------------------------------------------------------------ *)

(** The place of a label in the order in which [categorize] tests the
    keyword groups; Other, the default, comes last. *)
Definition precedence (c : category) : nat :=
  match c with
  | Food => 0
  | Transport => 1
  | Utilities => 2
  | Shopping => 3
  | Salary => 4
  | Entertainment => 5
  | Other => 6
  end.

(** The position of the first group with a keyword in [text], or the number
    of groups when there is none. *)
Fixpoint match_pos (groups : list (category * list string)) (text : string)
    : nat :=
  match groups with
  | [] => O
  | g :: groups' =>
      if group_matches text g then O else S (match_pos groups' text)
  end.

(* ------------------------------------------------------------------ *)
(** * The aggregates, the detector and the advisor in binary64          *)
(* ------------------------------------------------------------------ *)

(** A pandas Series of doubles. *)
Definition Series64 (K : Type) : Type := list (K * float).

Definition index64 {K : Type} (s : Series64 K) : list K := map fst s.
Definition values64 {K : Type} (s : Series64 K) : list float := map snd s.

(** A row of [df] as lines 47-99 use it: its category, its month and its
    amount, a double. *)
Record Row64 : Type := {
  Category64 : category;
  YearMonth64 : Z;
  Amount64 : float
}.

(** Line 20 on a double; a not-a-number amount is not above 0. *)
Definition type_of64 (x : float) : txn_type :=
  if (0 <? x)%float then Income else Expense.

Definition is_expense64 (r : Row64) : bool :=
  match type_of64 (Amount64 r) with Income => false | Expense => true end.

Definition expense_df64 (df : list Row64) : list Row64 :=
  filter is_expense64 df.

(** Unary minus on a Series of doubles. *)
Definition neg_values64 {K : Type} (s : Series64 K) : Series64 K :=
  map (fun e => (fst e, (- snd e)%float)) s.

(** [Series.sort_values(ascending=True)] on doubles: the values that are
    numbers in ascending order, then the not-a-number ones.  As in
    [sort_values], equal values keep their order here. *)
Fixpoint sort_insert64 {K : Type} (e : K * float) (s : Series64 K)
    : Series64 K :=
  match s with
  | [] => [e]
  | e' :: s' =>
      if (snd e <=? snd e')%float then e :: s else e' :: sort_insert64 e s'
  end.

Definition is_number {K : Type} (e : K * float) : bool :=
  negb (PrimFloat.is_nan (snd e)).

Definition sort_values64 {K : Type} (s : Series64 K) : Series64 K :=
  (fold_right sort_insert64 [] (filter is_number s)
   ++ filter (fun e => negb (is_number e)) s)%list.

Section GroupBy64.

Context {K : Type}.
Variable rank : K -> Z.

(** The group-by sum of pandas, applied to the values of one group in row
    order. *)
Variable group_sum : list float -> float.

Fixpoint insert_key (k : K) (ks : list K) : list K :=
  match ks with
  | [] => [k]
  | k' :: ks' =>
      match (rank k ?= rank k')%Z with
      | Lt => k :: ks
      | Eq => ks
      | Gt => k' :: insert_key k ks'
      end
  end.

(** The keys of the groups: each key once, in ascending order. *)
Definition group_keys (l : list (K * float)) : list K :=
  fold_left (fun ks e => insert_key (fst e) ks) l [].

(** The values of the rows of one group, in row order. *)
Definition group_values (k : K) (l : list (K * float)) : list float :=
  map snd (filter (fun e => (rank (fst e) =? rank k)%Z) l).

(** [groupby(key)[col].sum()] on doubles. *)
Definition groupby_sum64 (l : list (K * float)) : Series64 K :=
  map (fun k => (k, group_sum (group_values k l))) (group_keys l).

End GroupBy64.

(** The number of values of a series as a double. *)
Definition count64 {A : Type} (l : list A) : float :=
  PrimFloat.of_uint63 (Uint63.of_Z (Z.of_nat (length l))).

(** The values of a series that are numbers. *)
Definition numbers (l : list float) : list float :=
  filter (fun x => negb (PrimFloat.is_nan x)) l.

(** The values of a series with 0 in place of not-a-number. *)
Definition fillna0 (l : list float) : list float :=
  map (fun x => if PrimFloat.is_nan x then 0%float else x) l.

(** The constant [1.2] of line 81: the double nearest to 6/5, just below
    it. *)
Definition one_point_two : float := 0x1.3333333333333p+0%float.

(** Line 86 on doubles: [x > threshold]; false when the threshold is
    not-a-number. *)
Definition status_of64 (threshold x : float) : status :=
  if (threshold <? x)%float then OverspendingRisk else WithinBudget.

Section Aggregates64.

(** [Series.sum] of pandas on the values of a Series of doubles. *)
Variable series_sum : list float -> float.

(** The group-by sum of pandas. *)
Variable group_sum : list float -> float.

(** Line 48. *)
Definition total_expense64 (df : list Row64) : float :=
  (- series_sum (map Amount64 (expense_df64 df)))%float.

(** Lines 57-58. *)
Definition monthly_expense64 (df : list Row64) : Series64 Z :=
  neg_values64
    (groupby_sum64 (fun m => m) group_sum
       (map (fun r => (YearMonth64 r, Amount64 r)) (expense_df64 df))).

(** The pairs of category and amount of the expense rows. *)
Definition expense_by_category (df : list Row64) : list (category * float) :=
  map (fun r => (Category64 r, Amount64 r)) (expense_df64 df).

(** Lines 97-98. *)
Definition category_expense64 (df : list Row64) : Series64 category :=
  neg_values64
    (sort_values64
       (groupby_sum64 category_rank group_sum (expense_by_category df))).

(** [Series.mean]: not-a-number values are left out, being counted out
    and added as 0; the mean is the sum over the count, and not-a-number
    when nothing is counted. *)
Definition mean64 (l : list float) : float :=
  match numbers l with
  | [] => nan
  | _ :: _ => (series_sum (fillna0 l) / count64 (numbers l))%float
  end.

(** Lines 80-81. *)
Definition threshold64 (monthly : Series64 Z) : float :=
  (mean64 (values64 monthly) * one_point_two)%float.

(** Lines 83-87. *)
Definition prediction_df64 (monthly : Series64 Z)
    : list (Z * float * status) :=
  map (fun e => (fst e, snd e, status_of64 (threshold64 monthly) (snd e)))
      monthly.

(** Line 99. *)
Definition top_categories64 (df : list Row64) : Series64 category :=
  firstn 3 (category_expense64 df).

(** Lines 104-117. *)
Definition advice64 (df : list Row64) : list string :=
  map advice_for (index64 (top_categories64 df)).

End Aggregates64.

(** [Series.sum] on fewer than eight doubles: numpy adds them one after
    the other. *)
Definition sum64 (l : list float) : float := fold_left PrimFloat.add l 0%float.

(** The group-by sum of pandas: a compensated (Kahan) sum. *)
Fixpoint kahan_loop (sumx comp : float) (l : list float) : float :=
  match l with
  | [] => sumx
  | val :: l' =>
      let y := (val - comp)%float in
      let t := (sumx + y)%float in
      let c := (t - sumx - y)%float in
      kahan_loop t (if PrimFloat.is_nan c then 0%float else c) l'
  end.

Definition kahan_sum (l : list float) : float := kahan_loop 0 0 l.

(** Three Food expenses of 0.1, 0.2 and 0.3 in one month. *)
Definition three_food_expenses : list Row64 :=
  [ {| Category64 := Food; YearMonth64 := 648; Amount64 := (-0.1)%float |};
    {| Category64 := Food; YearMonth64 := 648; Amount64 := (-0.2)%float |};
    {| Category64 := Food; YearMonth64 := 648; Amount64 := (-0.3)%float |} ].

(** Expenses in four categories and a salary. *)
Definition mixed_ledger64 : list Row64 :=
  [ {| Category64 := Food; YearMonth64 := 648; Amount64 := (-450.5)%float |};
    {| Category64 := Salary; YearMonth64 := 648; Amount64 := 50000%float |};
    {| Category64 := Transport; YearMonth64 := 648; Amount64 := (-120)%float |};
    {| Category64 := Shopping; YearMonth64 := 649; Amount64 := (-999.99)%float |};
    {| Category64 := Food; YearMonth64 := 649; Amount64 := (-80.25)%float |};
    {| Category64 := Utilities; YearMonth64 := 649; Amount64 := (-60)%float |} ].

(** The place of a double's specification in the order of IEEE
    comparison; not-a-number is not compared. *)
Definition sf_key (f : spec_float) : Z * Z * Z :=
  match f with
  | S754_nan => (3, 0, 0)
  | S754_infinity true => (-2, 0, 0)
  | S754_infinity false => (2, 0, 0)
  | S754_zero _ => (0, 0, 0)
  | S754_finite true m e => (-1, - e, Z.neg m)
  | S754_finite false m e => (1, e, Z.pos m)
  end%Z.

Definition key_le (a b : Z * Z * Z) : Prop :=
  let '(a1, a2, a3) := a in
  let '(b1, b2, b3) := b in
  (a1 < b1 \/ (a1 = b1 /\ (a2 < b2 \/ (a2 = b2 /\ a3 <= b3))))%Z.

Definition is_nan_sf (f : spec_float) : bool :=
  match f with S754_nan => true | _ => false end.

(** The order of a ranked series of doubles: the numbers in descending
    order, then the not-a-number values. *)
Definition ranked_before (x y : float) : Prop :=
  PrimFloat.is_nan y = true
  \/ (PrimFloat.is_nan x = false /\ (y <=? x)%float = true).

(* ================================================================== *)
(** * Properties                                                        *)
(* ================================================================== *)

(* ------------------------------------------------------------------ *)
(** ** Substrings                                                       *)
(* ------------------------------------------------------------------ *)

Lemma prefix_app (n h : string) :
  String.prefix n h = true <-> exists b, h = n ++ b.
Proof.
  revert h; induction n as [|c n IH]; intros h.
  - destruct h; simpl; split; eauto.
  - destruct h as [|d h]; simpl.
    + split; [discriminate | intros [b Hb]; discriminate].
    + destruct (Ascii.ascii_dec c d) as [->|Hcd].
      * rewrite IH. split; intros [b Hb]; exists b.
        -- now rewrite Hb.
        -- now inversion Hb.
      * split; [discriminate | intros [b Hb]; inversion Hb; congruence].
Qed.

(** [contains] is the substring relation. *)
Lemma contains_substring (n h : string) :
  contains n h = true <-> exists a b, h = a ++ n ++ b.
Proof.
  induction h as [|c h IH]; cbn [contains].
  - rewrite orb_false_r, prefix_app. split.
    + intros [b Hb]. now exists "", b.
    + intros [a [b Hb]]. destruct a; simpl in Hb.
      * now exists b.
      * discriminate.
  - rewrite orb_true_iff, prefix_app, IH. split.
    + intros [[b Hb] | [a [b Hb]]].
      * now exists "", b.
      * exists (String c a), b. simpl. now rewrite Hb.
    + intros [a [b Hb]]. destruct a as [|c' a]; simpl in Hb.
      * left. now exists b.
      * right. inversion Hb. now exists a, b.
Qed.

(* ------------------------------------------------------------------ *)
(** ** The categorizer                                                  *)
(* ------------------------------------------------------------------ *)

Lemma find_first {A : Type} (f : A -> bool) (pre post : list A) (g : A) :
  f g = true -> (forall g', In g' pre -> f g' = false) ->
  find f (pre ++ g :: post) = Some g.
Proof.
  intros Hg. induction pre as [|a pre IH]; intros Hpre; simpl.
  - now rewrite Hg.
  - rewrite (Hpre a (or_introl eq_refl)). apply IH.
    intros g' Hin. apply Hpre. now right.
Qed.

Lemma first_match_in (groups : list (category * list string)) (text : string) :
  In (first_match groups text) (Other :: map fst groups).
Proof.
  unfold first_match. destruct (find _ groups) as [g|] eqn:E.
  - right. apply in_map. now apply find_some in E.
  - now left.
Qed.

Lemma first_match_other (groups : list (category * list string)) (text : string) :
  (forall g, In g groups -> fst g <> Other) ->
  first_match groups text = Other <->
  (forall g kw, In g groups -> In kw (snd g) -> contains kw text = false).
Proof.
  intros Hno. unfold first_match.
  destruct (find _ groups) as [g|] eqn:E.
  - apply find_some in E. destruct E as [Hin Hm]. split.
    + intros Heq. now elim (Hno g Hin).
    + intros Hall. unfold group_matches in Hm.
      apply existsb_exists in Hm. destruct Hm as [kw [Hkw Hc]].
      rewrite (Hall g kw Hin Hkw) in Hc. discriminate.
  - split; [|reflexivity]. intros _ g kw Hin Hkw.
    pose proof (find_none _ _ E g Hin) as Hg. unfold group_matches in Hg.
    destruct (contains kw text) eqn:Hc; [|reflexivity].
    assert (existsb (fun kw => contains kw text) (snd g) = true) as Hex
      by (apply existsb_exists; eauto).
    congruence.
Qed.

Section CategorizerFacts.

Variable str_lower : string -> string.

Lemma categorize_refines (d : string) :
  categorize str_lower d = categorize_spec str_lower d.
Proof.
  unfold categorize, categorize_spec, first_match, taxonomy, group_matches.
  cbv zeta. cbn [find existsb snd fst].
  repeat rewrite orb_false_r.
  repeat match goal with
         | |- context [contains ?k ?t] =>
             destruct (contains k t); cbn [orb]; try reflexivity
         end.
Qed.

(** C1.  [categorize] is a function from text to the seven labels: its
    result is one of them, it is the label of the first keyword group of
    the taxonomy that has a keyword occurring in the lower-cased text, and
    it is Other exactly when no keyword occurs.  When the lower-cased text
    contains both "uber" and "bill" (and no Food keyword, Food being the
    one group ahead of Transport), the result is Transport. *)
Theorem categorize_total_first_match (d : string) :
  In (categorize str_lower d) all_categories
  /\ categorize str_lower d = first_match taxonomy (str_lower d)
  /\ (forall pre g post,
        taxonomy = (pre ++ g :: post)%list ->
        group_matches (str_lower d) g = true ->
        (forall g', In g' pre -> group_matches (str_lower d) g' = false) ->
        categorize str_lower d = fst g)
  /\ (categorize str_lower d = Other <->
      forall g kw, In g taxonomy -> In kw (snd g) ->
                   contains kw (str_lower d) = false)
  /\ (contains "uber" (str_lower d) = true ->
      contains "bill" (str_lower d) = true ->
      group_matches (str_lower d) (Food, ["zomato"; "swiggy"; "restaurant"]) = false ->
      categorize str_lower d = Transport).
Proof.
  rewrite categorize_refines. unfold categorize_spec.
  split; [|split; [|split; [|split]]].
  - pose proof (first_match_in taxonomy (str_lower d)) as H.
    simpl in H. unfold all_categories. simpl. tauto.
  - reflexivity.
  - intros pre g post Ht Hg Hpre. unfold first_match.
    rewrite Ht. now rewrite (find_first _ pre post g Hg Hpre).
  - apply first_match_other. intros g Hin.
    unfold taxonomy in Hin. cbn [In] in Hin.
    repeat (destruct Hin as [<-|Hin]; [simpl; discriminate|]). contradiction.
  - intros Hu _ Hf. unfold first_match, taxonomy.
    cbn [find]. rewrite Hf.
    unfold group_matches at 1. cbn [existsb snd]. now rewrite Hu.
Qed.

End CategorizerFacts.

Lemma categorize_total_first_match_witness :
  categorize lower_ascii "Uber ride and phone BILL" = Transport.
Proof.
  apply (categorize_total_first_match lower_ascii "Uber ride and phone BILL");
    reflexivity.
Defined.

(* ------------------------------------------------------------------ *)
(** ** Sums and means                                                   *)
(* ------------------------------------------------------------------ *)

Lemma fold_sum (l : list Q) (a : Q) : (fold_left Qplus l a == a + sum l)%Q.
Proof.
  unfold sum. revert a. induction l as [|x l IH]; intros a; simpl.
  - lra.
  - rewrite (IH (a + x)%Q), (IH (0 + x)%Q). lra.
Qed.

Lemma sum_cons (x : Q) (l : list Q) : (sum (x :: l) == x + sum l)%Q.
Proof. unfold sum at 1. simpl. rewrite fold_sum. lra. Qed.

Lemma sum_app (l1 l2 : list Q) : (sum (l1 ++ l2) == sum l1 + sum l2)%Q.
Proof.
  induction l1 as [|x l1 IH]; simpl.
  - unfold sum at 2. simpl. lra.
  - rewrite !sum_cons, IH. lra.
Qed.

Lemma sum_Permutation (l1 l2 : list Q) :
  Permutation l1 l2 -> (sum l1 == sum l2)%Q.
Proof.
  induction 1 as [|x l l' _ IH|x y l|l l' l'' _ IH1 _ IH2].
  - reflexivity.
  - rewrite !sum_cons, IH. reflexivity.
  - rewrite !sum_cons. lra.
  - now rewrite IH1.
Qed.



Lemma sum_neg_values {K : Type} (s : Series K) :
  (sum (values (neg_values s)) == - sum (values s))%Q.
Proof.
  unfold values, neg_values.
  induction s as [|e s IH]; cbn [map snd fst].
  - unfold sum. cbn [fold_left]. lra.
  - rewrite !sum_cons, IH. lra.
Qed.

Lemma index_neg_values {K : Type} (s : Series K) :
  index (neg_values s) = index s.
Proof.
  unfold index, neg_values. rewrite map_map. reflexivity.
Qed.



(* ------------------------------------------------------------------ *)
(** ** Group-by                                                         *)
(* ------------------------------------------------------------------ *)

Section GroupByFacts.

Context {K : Type}.
Variable rank : K -> Z.

Lemma sum_group_add (k : K) (x : Q) (acc : Series K) :
  (sum (values (group_add rank k x acc)) == sum (values acc) + x)%Q.
Proof.
  unfold values.
  induction acc as [|[k' s] acc IH]; cbn [group_add map snd].
  - rewrite sum_cons. unfold sum. cbn [fold_left]. lra.
  - destruct (rank k ?= rank k')%Z; cbn [map snd]; rewrite !sum_cons.
    + lra.
    + lra.
    + rewrite IH. lra.
Qed.

Lemma sum_fold_group_add (l : list (K * Q)) (acc : Series K) :
  (sum (values (fold_left (fun a e => group_add rank (fst e) (snd e) a) l acc))
   == sum (values acc) + sum (map snd l))%Q.
Proof.
  revert acc. induction l as [|e l IH]; intros acc; cbn [fold_left map].
  - unfold sum at 3. cbn [fold_left]. lra.
  - rewrite IH, sum_group_add, sum_cons. lra.
Qed.

(** Grouping keeps the grand total. *)
Lemma sum_groupby_sum (l : list (K * Q)) :
  (sum (values (groupby_sum rank l)) == sum (map snd l))%Q.
Proof.
  unfold groupby_sum. rewrite sum_fold_group_add.
  unfold sum at 1. cbn [values map fold_left]. lra.
Qed.



Hypothesis rank_inj : forall a b, rank a = rank b -> a = b.

Lemma index_group_add (k : K) (x : Q) (acc : Series K) (k0 : K) :
  In k0 (index (group_add rank k x acc)) <-> k0 = k \/ In k0 (index acc).
Proof.
  unfold index.
  induction acc as [|[k' s] acc IH]; cbn [group_add map fst In].
  - intuition.
  - destruct (Z.compare_spec (rank k) (rank k')) as [E|E|E];
      cbn [map fst In].
    + apply rank_inj in E. subst k'. intuition.
    + intuition.
    + rewrite IH. intuition.
Qed.

Lemma keys_ascending_group_add (k : K) (x : Q) (acc : Series K) :
  keys_ascending rank acc -> keys_ascending rank (group_add rank k x acc).
Proof.
  unfold keys_ascending.
  induction acc as [|[k' s] acc IH]; cbn [group_add]; intros Hs.
  - repeat constructor.
  - pose proof Hs as Hs'.
    unfold index in Hs'. cbn [map fst] in Hs'.
    inversion Hs' as [|? ? Hrest Hall]; subst.
    destruct (Z.compare_spec (rank k) (rank k')) as [E|E|E];
      unfold index; cbn [map fst]; fold (index acc).
    + constructor; assumption.
    + constructor; [exact Hs|]. constructor; [exact E|].
      eapply Forall_impl; [|exact Hall]. cbv beta. intros; lia.
    + constructor; [now apply IH|].
      apply Forall_forall. intros k0 Hin.
      apply index_group_add in Hin. destruct Hin as [->|Hin]; [exact E|].
      rewrite Forall_forall in Hall. now apply Hall.
Qed.

Lemma groupby_sum_keys (l : list (K * Q)) :
  keys_ascending rank (groupby_sum rank l)
  /\ forall k, In k (index (groupby_sum rank l)) <-> In k (map fst l).
Proof.
  unfold groupby_sum.
  assert (forall acc,
             keys_ascending rank acc ->
             let r := fold_left
                        (fun a e => group_add rank (fst e) (snd e) a) l acc in
             keys_ascending rank r
             /\ forall k, In k (index r) <-> In k (map fst l) \/ In k (index acc))
    as G.
  { induction l as [|e l IH]; intros acc Hacc; simpl.
    - split; [exact Hacc | intuition].
    - destruct (IH (group_add rank (fst e) (snd e) acc)
                  (keys_ascending_group_add _ _ _ Hacc)) as [H1 H2].
      split; [exact H1|]. intros k. rewrite H2, index_group_add. intuition. }
  destruct (G [] (SSorted_nil _)) as [H1 H2].
  split; [exact H1|]. intros k. rewrite H2. simpl. intuition.
Qed.

Lemma keys_ascending_NoDup (s : Series K) : keys_ascending rank s -> NoDup (index s).
Proof.
  unfold keys_ascending. induction 1 as [|k l _ IH Hall].
  - constructor.
  - constructor; [|exact IH]. intros Hin.
    rewrite Forall_forall in Hall. specialize (Hall k Hin). lia.
Qed.

End GroupByFacts.

(* ------------------------------------------------------------------ *)
(** ** Sorting by value                                                 *)
(* ------------------------------------------------------------------ *)

Section SortFacts.

Context {K : Type}.

Lemma sort_insert_perm (e : K * Q) (s : Series K) :
  Permutation (sort_insert e s) (e :: s).
Proof.
  induction s as [|e' s IH]; cbn [sort_insert].
  - apply Permutation_refl.
  - destruct (Qle_bool (snd e) (snd e')).
    + apply Permutation_refl.
    + eapply perm_trans; [apply perm_skip, IH | apply perm_swap].
Qed.

Lemma sort_values_perm (s : Series K) : Permutation (sort_values s) s.
Proof.
  induction s as [|e s IH]; cbn [sort_values].
  - constructor.
  - eapply perm_trans; [apply sort_insert_perm | now apply perm_skip].
Qed.




End SortFacts.

(** In a sorted list every element of a prefix is related to every
    element of the rest. *)
Lemma sorted_firstn_skipn {A : Type} (R : A -> A -> Prop) (n : nat) (l : list A) :
  StronglySorted R l ->
  forall a b, In a (firstn n l) -> In b (skipn n l) -> R a b.
Proof.
  intros Hs. revert n. induction Hs as [|x l _ IH Hall]; intros n a b Ha Hb.
  - destruct n; contradiction.
  - destruct n as [|n]; [contradiction|].
    cbn [firstn skipn] in Ha, Hb. destruct Ha as [<-|Ha].
    + rewrite Forall_forall in Hall. apply Hall.
      rewrite <- (firstn_skipn n l). apply in_or_app. now right.
    + now apply (IH n).
Qed.

(* ------------------------------------------------------------------ *)
(** ** The aggregates                                                   *)
(* ------------------------------------------------------------------ *)

Lemma category_rank_inj (a b : category) :
  category_rank a = category_rank b -> a = b.
Proof. destruct a, b; simpl; intros H; try reflexivity; discriminate. Qed.

(** [category_rank] is the order of the labels as strings. *)
Lemma category_rank_label (a b : category) :
  (category_rank a <=? category_rank b)%Z
  = String.leb (category_label a) (category_label b).
Proof. destruct a, b; reflexivity. Qed.

Lemma category_expense_perm (df : list Row) :
  Permutation
    (category_expense df)
    (neg_values
       (groupby_sum category_rank
          (map (fun r => (Category r, Amount r)) (expense_df df)))).
Proof.
  unfold category_expense, neg_values. apply Permutation_map.
  apply sort_values_perm.
Qed.


(** In the exact model, where addition is associative and commutative,
    the category values add up to the total expense. *)
Lemma exact_total_is_category_sum (df : list Row) :
  (total_expense df == sum (values (category_expense df)))%Q.
Proof.
  unfold total_expense.
  rewrite (sum_Permutation _ _
             (Permutation_map snd (category_expense_perm df))).
  fold (values (neg_values (groupby_sum category_rank
          (map (fun r => (Category r, Amount r)) (expense_df df))))).
  rewrite sum_neg_values, sum_groupby_sum.
  unfold expense_df. rewrite map_map. cbn [snd]. reflexivity.
Qed.

(* ------------------------------------------------------------------ *)
(** ** The advisor                                                      *)
(* ------------------------------------------------------------------ *)

Lemma category_expense_index (df : list Row) :
  NoDup (index (category_expense df))
  /\ forall c, In c (index (category_expense df)) <->
               exists r, In r df /\ Type_ r = Expense /\ Category r = c.
Proof.
  set (g := groupby_sum category_rank
              (map (fun r => (Category r, Amount r)) (expense_df df))).
  assert (Permutation (index (category_expense df)) (index g)) as P.
  { unfold index at 1. rewrite (Permutation_map fst (category_expense_perm df)).
    fold g. fold (index (neg_values g)). now rewrite index_neg_values. }
  destruct (groupby_sum_keys category_rank category_rank_inj
              (map (fun r => (Category r, Amount r)) (expense_df df)))
    as [Hs Hk].
  fold g in Hs, Hk. split.
  - apply (Permutation_NoDup (Permutation_sym P)).
    now apply (keys_ascending_NoDup category_rank).
  - intros c. split.
    + intros Hin. apply (Permutation_in _ P) in Hin.
      apply Hk in Hin. rewrite map_map in Hin. cbn [fst] in Hin.
      apply in_map_iff in Hin. destruct Hin as [r [Hc Hr]].
      unfold expense_df in Hr. apply filter_In in Hr. destruct Hr as [Hr He].
      exists r. repeat split; try assumption.
      unfold is_expense in He. destruct (Type_ r); [discriminate|reflexivity].
    + intros [r [Hr [He Hc]]].
      apply (Permutation_in _ (Permutation_sym P)). apply Hk.
      rewrite map_map. cbn [fst]. apply in_map_iff. exists r.
      split; [exact Hc|]. unfold expense_df. apply filter_In.
      split; [exact Hr|]. unfold is_expense. now rewrite He.
Qed.

(* ------------------------------------------------------------------ *)
(** ** The overspending detector                                        *)
(* ------------------------------------------------------------------ *)




(* ------------------------------------------------------------------ *)
(** ** The loader                                                       *)
(* ------------------------------------------------------------------ *)

Lemma mapM_inr {A B : Type} (f : A -> exn + B) (l : list A) (l' : list B) :
  mapM f l = inr l' -> Forall2 (fun a b => f a = inr b) l l'.
Proof.
  revert l'. induction l as [|a l IH]; intros l'; cbn [mapM].
  - intros H. inversion H. constructor.
  - destruct (f a) as [e|b] eqn:Ea; [discriminate|].
    destruct (mapM f l) as [e|bs]; [discriminate|].
    intros H. inversion H; subst. constructor; [exact Ea | now apply IH].
Qed.

(** [mapM] stops at the first element on which [f] raises. *)
Lemma mapM_inl {A B : Type} (f : A -> exn + B) (l : list A) :
  (exists a e, In a l /\ f a = inl e) ->
  exists a e, In a l /\ f a = inl e /\ mapM f l = inl e.
Proof.
  induction l as [|a l IH]; intros [a0 [e0 [Hin Hf]]].
  - contradiction.
  - cbn [mapM]. destruct (f a) as [e|b] eqn:Ea.
    + exists a, e. repeat split; [now left | exact Ea].
    + destruct Hin as [->|Hin]; [congruence|].
      destruct IH as [a1 [e1 [Hin1 [Hf1 Hm]]]]; [now exists a0, e0|].
      exists a1, e1. rewrite Hm. repeat split; [now right | exact Hf1].
Qed.

Lemma mapM_total {A B : Type} (f : A -> exn + B) (l : list A) :
  Forall (fun a => exists b, f a = inr b) l ->
  exists l', mapM f l = inr l'.
Proof.
  induction 1 as [|a l [b Hb] _ [l' IH]]; cbn [mapM].
  - now exists [].
  - rewrite Hb, IH. now exists (b :: l').
Qed.

(** ... and that element is the first one after a prefix on which [f]
    returns. *)
Lemma mapM_first_inl {A B : Type} (f : A -> exn + B) (pre post : list A)
    (a : A) (e : exn) :
  Forall (fun x => exists b, f x = inr b) pre ->
  f a = inl e ->
  mapM f (pre ++ a :: post) = inl e.
Proof.
  intros Hpre Ha. induction Hpre as [|x pre [b Hb] _ IH]; cbn [app mapM].
  - now rewrite Ha.
  - now rewrite Hb, IH.
Qed.

Lemma all_present_some (r : list cell) (vs : list value) :
  all_present r = Some vs <-> r = map Some vs.
Proof.
  revert vs. induction r as [|[v|] r IH]; intros vs; cbn [all_present].
  - split; [intros H; inversion H; reflexivity|].
    destruct vs; [reflexivity | discriminate].
  - destruct (all_present r) as [vs'|] eqn:E; cbn [option_map].
    + split.
      * intros H. inversion H; subst. cbn [map]. f_equal. now apply IH.
      * destruct vs as [|v0 vs]; [discriminate|]. cbn [map].
        intros H. inversion H; subst. f_equal. f_equal.
        assert (Some vs' = Some vs) as H' by (apply IH; reflexivity).
        now inversion H'.
    + split; [discriminate|].
      destruct vs as [|v0 vs]; [discriminate|]. cbn [map].
      intros H. inversion H; subst.
      assert (None = Some vs) by (apply IH; reflexivity). discriminate.
  - split; [discriminate|]. destruct vs; discriminate.
Qed.

Section LoaderFacts.

Variable str_lower : string -> string.
Variable to_datetime : value -> option Timestamp.
Variable to_float : string -> option Q.
Variable ax_pie : Series category -> option exn.

Lemma survivors (i : nat) (rs : list (list cell)) :
  map (fun e => map Some (snd e)) (dropna_date to_datetime i (dropna rs))
  = filter (row_survives to_datetime i) rs.
Proof.
  induction rs as [|r rs IH]; cbn [dropna filter]; [reflexivity|].
  unfold row_survives at 1.
  destruct (all_present r) as [vs|] eqn:E; [|exact IH].
  cbn [dropna_date].
  destruct (to_datetime (at_col i vs)); [|exact IH].
  cbn [map snd]. rewrite IH.
  apply all_present_some in E. now rewrite E.
Qed.

(** The stages of a successful load. *)
Lemma load_inr (raw : DataFrame) (df : list Row) :
  load str_lower to_datetime to_float raw = inr df ->
  exists i j k mid,
    index_of "Date" (columns raw) = Some i
    /\ index_of "Amount" (columns raw) = Some j
    /\ index_of "Description" (columns raw) = Some k
    /\ mapM (with_amount to_float j)
         (dropna_date to_datetime i (dropna (rows raw))) = inr mid
    /\ mapM (with_category str_lower k) mid = inr df.
Proof.
  unfold load, column_index.
  destruct (index_of "Date" (columns raw)) as [i|]; [|discriminate].
  destruct (index_of "Amount" (columns raw)) as [j|]; [|discriminate].
  destruct (mapM (with_amount to_float j) _) as [e|mid] eqn:Em; [discriminate|].
  destruct (index_of "Description" (columns raw)) as [k|]; [|discriminate].
  intros H. exists i, j, k, mid. repeat split; assumption.
Qed.

Lemma with_category_row (k : nat) (e : Timestamp * list value * Q) (r : Row) :
  with_category str_lower k e = inr r ->
  Cells r = snd (fst e)
  /\ Date r = fst (fst e)
  /\ Amount r = snd e
  /\ Type_ r = type_of (Amount r)
  /\ Category r = categorize str_lower (Description r)
  /\ YearMonth r = to_period_M (Date r)
  /\ at_col k (Cells r) = VStr (Description r).
Proof.
  destruct e as [[d cells] x]. unfold with_category.
  destruct (at_col k cells) eqn:E; [|discriminate].
  intros H. inversion H; subst. cbn. repeat split; assumption.
Qed.

Lemma with_amount_row (j : nat) (e : Timestamp * list value)
    (e' : Timestamp * list value * Q) :
  with_amount to_float j e = inr e' ->
  fst e' = e /\ astype_float to_float (at_col j (snd e)) = inr (snd e').
Proof.
  unfold with_amount.
  destruct (astype_float to_float (at_col j (snd e))); [discriminate|].
  intros H. inversion H; subst. split; reflexivity.
Qed.

(** Every row of a loaded ledger has its derived columns. *)
Lemma load_rows (raw : DataFrame) (df : list Row) :
  load str_lower to_datetime to_float raw = inr df ->
  Forall (fun r => Type_ r = type_of (Amount r)
                   /\ Category r = categorize str_lower (Description r)
                   /\ YearMonth r = to_period_M (Date r)) df.
Proof.
  intros H. destruct (load_inr _ _ H) as [i [j [k [mid [_ [_ [_ [_ Hc]]]]]]]].
  apply mapM_inr in Hc. clear H.
  induction Hc as [|e r mid df He _ IH]; constructor; [|exact IH].
  apply with_category_row in He. tauto.
Qed.

Lemma load_cells (raw : DataFrame) (df : list Row) (i : nat) :
  load str_lower to_datetime to_float raw = inr df ->
  index_of "Date" (columns raw) = Some i ->
  map (fun r => map Some (Cells r)) df
  = filter (row_survives to_datetime i) (rows raw).
Proof.
  intros H Hi. destruct (load_inr _ _ H) as [i' [j [k [mid [Hi' [_ [_ [Ha Hc]]]]]]]].
  assert (i' = i) by congruence. subst i'.
  rewrite <- survivors.
  apply mapM_inr in Ha. apply mapM_inr in Hc.
  clear H. revert df Hc.
  induction Ha as [|e e' l mid He _ IH]; intros df Hc.
  - inversion Hc. reflexivity.
  - inversion Hc as [|? r ? df' Hr Hrest]; subst.
    cbn [map]. rewrite (IH df' Hrest). f_equal.
    apply with_category_row in Hr. apply with_amount_row in He.
    destruct Hr as [Hr _]. destruct He as [He _].
    rewrite Hr, He. reflexivity.
Qed.

Lemma run_inl (raw : DataFrame) (e : exn) :
  load str_lower to_datetime to_float raw = inl e ->
  run str_lower to_datetime to_float ax_pie raw = (inl e, []).
Proof. intros H. unfold run, lift, bind. now rewrite H. Qed.

End LoaderFacts.

(* ------------------------------------------------------------------ *)
(** ** The run as a whole                                               *)
(* ------------------------------------------------------------------ *)

Lemma type_of_spec (x : Q) :
  (type_of x = Income <-> (0 < x)%Q) /\ (type_of x = Expense <-> (x <= 0)%Q).
Proof.
  unfold type_of. destruct (Qlt_le_dec 0 x) as [H|H]; split; split;
    intros H'; try reflexivity; try discriminate; try assumption; lra.
Qed.

Section RunFacts.

Variable str_lower : string -> string.
Variable to_datetime : value -> option Timestamp.
Variable to_float : string -> option Q.
Variable ax_pie : Series category -> option exn.

(** C8.  In every loaded ledger, the Type of a row is Income if and only
    if its amount is strictly greater than 0; a row with amount 0 is
    typed Expense. *)
Theorem type_income_iff_positive (raw : DataFrame) (df : list Row) :
  load str_lower to_datetime to_float raw = inr df ->
  forall r, In r df ->
    (Type_ r = Income <-> (0 < Amount r)%Q)
    /\ ((Amount r == 0)%Q -> Type_ r = Expense).
Proof.
  intros H r Hin.
  pose proof (load_rows _ _ _ _ _ H) as Hall.
  rewrite Forall_forall in Hall. destruct (Hall r Hin) as [Ht _].
  rewrite Ht. split.
  - apply type_of_spec.
  - intros H0. apply type_of_spec. lra.
Qed.




(** C4, as the code has it.  When the load leaves zero rows, the totals
    are 0 and the monthly series, the category series, the overspending
    table and the advice list are empty; the threshold is not-a-number and
    labels no month.  The script itself raises nothing, but it calls
    [ax2.pie] on the empty category series between the aggregates and the
    detector: when that call returns, the run ends normally and shows no
    warning and no tip; when it raises, the run ends with its exception
    after the metrics and the line plot, before the overspending table
    and the advice. *)
Theorem empty_ledger_degrades (raw : DataFrame) :
  load str_lower to_datetime to_float raw = inr [] ->
  ((total_income [] == 0)%Q
   /\ (total_expense [] == 0)%Q
   /\ (balance [] == 0)%Q
   /\ monthly_expense [] = []
   /\ category_expense [] = []
   /\ threshold (monthly_expense []) = None
   /\ prediction_df (monthly_expense []) = []
   /\ advice [] = [])
  /\ (ax_pie [] = None ->
      exists out,
        run str_lower to_datetime to_float ax_pie raw = (inr (analyse []), out)
        /\ In (dataframe_prediction []) out
        /\ (forall text, ~ In (warning text) out)
        /\ (forall text, ~ In (success text) out))
  /\ (forall e, ax_pie [] = Some e ->
        run str_lower to_datetime to_float ax_pie raw
        = (inl e,
           [markdown "### 📊 Cleaned & Categorized Data";
            dataframe [];
            metric "Total Income" (total_income []);
            metric "Total Expense" (total_expense []);
            metric "Net Balance" (balance []);
            markdown "### 🗕 Monthly Expense Trend";
            line_plot [];
            markdown "### 👁 Expense by Category (Pie Chart)"])).
Proof.
  intros H. split; [repeat split; reflexivity|]. split.
  - intros Hp. eexists. split.
    + unfold run, lift, bind, pie_chart. rewrite H. cbv beta iota.
      change (category_expense []) with (@nil (category * Q)).
      rewrite Hp. reflexivity.
    + split; [cbn; auto 20|].
      split; intros text Hin; cbn in Hin; intuition discriminate.
  - intros e Hp. unfold run, lift, bind, pie_chart. rewrite H. cbv beta iota.
    change (category_expense []) with (@nil (category * Q)).
    rewrite Hp. reflexivity.
Qed.

(** C3, as the code has it.  When the table has the Date and Amount
    columns, the first row, among those that pass the missing-value and
    date filters, whose Amount is text that [float] rejects makes line 19
    raise ValueError for that text: the load fails as a whole and the run
    ends there, before any output.  The row is not dropped and the rows
    before and after it are not processed. *)
Theorem non_numeric_amount_fatal (raw : DataFrame) (i j : nat)
    (pre post : list (Timestamp * list value)) (e : Timestamp * list value)
    (s : string) :
  index_of "Date" (columns raw) = Some i ->
  index_of "Amount" (columns raw) = Some j ->
  dropna_date to_datetime i (dropna (rows raw)) = (pre ++ e :: post)%list ->
  Forall (fun a => exists x, astype_float to_float (at_col j (snd a)) = inr x)
    pre ->
  at_col j (snd e) = VStr s ->
  to_float s = None ->
  load str_lower to_datetime to_float raw = inl (ValueError s)
  /\ run str_lower to_datetime to_float ax_pie raw = (inl (ValueError s), []).
Proof.
  intros Hi Hj Hrows Hpre Hat Hf.
  assert (load str_lower to_datetime to_float raw = inl (ValueError s)) as Hl.
  { unfold load, column_index. rewrite Hi, Hj, Hrows.
    rewrite (mapM_first_inl (with_amount to_float j) pre post e (ValueError s)).
    - reflexivity.
    - eapply Forall_impl; [|exact Hpre]. cbv beta.
      intros a [x Hx]. unfold with_amount. rewrite Hx. now eexists.
    - unfold with_amount, astype_float. now rewrite Hat, Hf. }
  split; [exact Hl | now apply run_inl].
Qed.

(** C6, as the code has it.  The rows of a loaded ledger are, in input
    order, exactly the rows of the table in which no column, required or
    extra, has a missing value and whose Date parses; beyond that test the
    extra columns play no part. *)
Theorem rows_kept_iff_complete (raw : DataFrame) (df : list Row) :
  load str_lower to_datetime to_float raw = inr df ->
  exists i,
    index_of "Date" (columns raw) = Some i
    /\ map (fun r => map Some (Cells r)) df
       = filter (row_survives to_datetime i) (rows raw)
    /\ forall r,
         row_survives to_datetime i r = true <->
         exists vs d, r = map Some vs /\ to_datetime (at_col i vs) = Some d.
Proof.
  intros H. destruct (load_inr _ _ _ _ _ H) as [i [j [k [mid [Hi _]]]]].
  exists i. split; [exact Hi|]. split; [now apply (load_cells str_lower to_datetime to_float)|].
  intros r. unfold row_survives. split.
  - destruct (all_present r) as [vs|] eqn:E; [|discriminate].
    destruct (to_datetime (at_col i vs)) as [d|] eqn:Ed; [|discriminate].
    intros _. exists vs, d. split; [now apply all_present_some | exact Ed].
  - intros [vs [d [Hr Hd]]]. apply all_present_some in Hr.
    now rewrite Hr, Hd.
Qed.

(** C7, as the code has it.  When a required column is absent, the run
    ends in an exception before any output.  The exception is the KeyError
    of the first absent column in the order the script reads them, Date
    (line 17), Amount (line 19), Description (line 40), with one
    exception: when Description is the only absent column and a row that
    passes the filters holds a non-numeric Amount, line 19 raises the
    ValueError of the first such amount before line 40 is reached. *)
Theorem missing_column_fatal (raw : DataFrame) :
  ((exists c, In c required_columns /\ has_column c raw = false) ->
   exists e, run str_lower to_datetime to_float ax_pie raw = (inl e, []))
  /\ (has_column "Date" raw = false ->
      run str_lower to_datetime to_float ax_pie raw
      = (inl (KeyError "Date"), []))
  /\ (has_column "Date" raw = true -> has_column "Amount" raw = false ->
      run str_lower to_datetime to_float ax_pie raw
      = (inl (KeyError "Amount"), []))
  /\ (forall i j,
        index_of "Date" (columns raw) = Some i ->
        index_of "Amount" (columns raw) = Some j ->
        has_column "Description" raw = false ->
        (Forall (fun a => exists x,
                     astype_float to_float (at_col j (snd a)) = inr x)
           (dropna_date to_datetime i (dropna (rows raw))) ->
         run str_lower to_datetime to_float ax_pie raw
         = (inl (KeyError "Description"), []))
        /\ (forall pre e post s,
              dropna_date to_datetime i (dropna (rows raw))
              = (pre ++ e :: post)%list ->
              Forall (fun a => exists x,
                          astype_float to_float (at_col j (snd a)) = inr x)
                pre ->
              at_col j (snd e) = VStr s ->
              to_float s = None ->
              run str_lower to_datetime to_float ax_pie raw
              = (inl (ValueError s), []))).
Proof.
  unfold has_column.
  assert (index_of "Date" (columns raw) = None ->
          run str_lower to_datetime to_float ax_pie raw
          = (inl (KeyError "Date"), [])) as KD.
  { intros E. apply run_inl. unfold load, column_index. now rewrite E. }
  assert (forall i, index_of "Date" (columns raw) = Some i ->
                    index_of "Amount" (columns raw) = None ->
          run str_lower to_datetime to_float ax_pie raw
          = (inl (KeyError "Amount"), [])) as KA.
  { intros i Ei E. apply run_inl. unfold load, column_index. now rewrite Ei, E. }
  split; [|split; [|split]].
  - intros [c [Hc Hmiss]].
    destruct (index_of "Date" (columns raw)) as [i|] eqn:Ei;
      [|eexists; now apply KD].
    destruct (index_of "Amount" (columns raw)) as [j|] eqn:Ej;
      [|eexists; now apply (KA i)].
    destruct (index_of "Description" (columns raw)) as [k|] eqn:Ek.
    { exfalso. cbn in Hc. destruct Hc as [<-|[<-|[<-|[]]]].
      - now rewrite Ei in Hmiss.
      - now rewrite Ek in Hmiss.
      - now rewrite Ej in Hmiss. }
    destruct (mapM (with_amount to_float j)
                (dropna_date to_datetime i (dropna (rows raw))))
      as [err|mid] eqn:Em.
    + exists err. apply run_inl. unfold load, column_index.
      now rewrite Ei, Ej, Em.
    + exists (KeyError "Description"). apply run_inl.
      unfold load, column_index. now rewrite Ei, Ej, Em, Ek.
  - destruct (index_of "Date" (columns raw)); [discriminate|].
    intros _. now apply KD.
  - destruct (index_of "Date" (columns raw)) as [i|] eqn:Ei; [|discriminate].
    destruct (index_of "Amount" (columns raw)) eqn:Ej; [discriminate|].
    intros _ _. now apply (KA i).
  - intros i j Ei Ej Hk.
    destruct (index_of "Description" (columns raw)) eqn:Ek; [discriminate|].
    split.
    + intros Hall.
      destruct (mapM_total (with_amount to_float j)
                  (dropna_date to_datetime i (dropna (rows raw)))) as [mid Hm].
      { eapply Forall_impl; [|exact Hall]. cbv beta.
        intros a [x Hx]. unfold with_amount. rewrite Hx. now eexists. }
      apply run_inl. unfold load, column_index. now rewrite Ei, Ej, Hm, Ek.
    + intros pre e post s Hrows Hpre Hat Hf.
      apply run_inl. unfold load, column_index. rewrite Ei, Ej, Hrows.
      rewrite (mapM_first_inl (with_amount to_float j) pre post e (ValueError s)).
      * reflexivity.
      * eapply Forall_impl; [|exact Hpre]. cbv beta.
        intros a [x Hx]. unfold with_amount. rewrite Hx. now eexists.
      * unfold with_amount, astype_float. now rewrite Hat, Hf.
Qed.

End RunFacts.

(* ------------------------------------------------------------------ *)
(** ** The sample inputs                                                *)
(* ------------------------------------------------------------------ *)

Lemma load_two_rows : sample_load two_rows = inr two_rows_ledger.
Proof. vm_compute. reflexivity. Qed.

(** The round-trip scenario: income 50000, expense 450, balance 49550,
    Food at 450 and the one month 2024-01 at 450. *)
Example round_trip :
  (total_income two_rows_ledger == 50000)%Q
  /\ (total_expense two_rows_ledger == 450)%Q
  /\ (balance two_rows_ledger == 49550)%Q
  /\ category_expense two_rows_ledger = [(Food, 450%Q)]
  /\ monthly_expense two_rows_ledger = [(to_period_M (Date zomato_row), 450%Q)].
Proof. repeat split; vm_compute; reflexivity. Qed.

Lemma type_income_iff_positive_witness :
  (Type_ salary_row = Income <-> (0 < Amount salary_row)%Q)
  /\ ((Amount salary_row == 0)%Q -> Type_ salary_row = Expense).
Proof.
  apply (type_income_iff_positive lower_ascii iso_datetime float_of_integer
           two_rows two_rows_ledger).
  - vm_compute. reflexivity.
  - simpl. auto.
Defined.


Lemma empty_ledger_degrades_witness :
  exists out,
    sample_run_older header_only = (inr (analyse []), out)
    /\ In (dataframe_prediction []) out
    /\ (forall text, ~ In (warning text) out)
    /\ (forall text, ~ In (success text) out).
Proof.
  apply (empty_ledger_degrades lower_ascii iso_datetime float_of_integer
           pie_older header_only).
  - vm_compute. reflexivity.
  - vm_compute. reflexivity.
Defined.

(** With the pie chart of recent matplotlib, the run on a table without
    rows ends in its ValueError after the metrics and the line plot: no
    overspending table and no advice are produced. *)
Lemma empty_ledger_pie_raises :
  sample_load header_only = inr []
  /\ sample_run header_only
     = (inl (ValueError ""),
        [markdown "### 📊 Cleaned & Categorized Data";
         dataframe [];
         metric "Total Income" 0;
         metric "Total Expense" 0;
         metric "Net Balance" 0;
         markdown "### 🗕 Monthly Expense Trend";
         line_plot [];
         markdown "### 👁 Expense by Category (Pie Chart)"]).
Proof. split; vm_compute; reflexivity. Qed.

(** A non-numeric amount in an otherwise valid row aborts the run: the row
    is not dropped, the valid row before it is not processed, and nothing
    is emitted.  The valid row alone loads. *)
Lemma non_numeric_amount_aborts_run :
  sample_load bad_amount = inl (ValueError "abc")
  /\ sample_run bad_amount = (inl (ValueError "abc"), [])
  /\ exists df, sample_load bad_amount_valid_part = inr df
                /\ length df = 1%nat.
Proof.
  split; [vm_compute; reflexivity|].
  split; [vm_compute; reflexivity|].
  eexists. split; vm_compute; reflexivity.
Qed.

Lemma non_numeric_amount_fatal_witness :
  sample_load bad_amount = inl (ValueError "abc")
  /\ sample_run bad_amount = (inl (ValueError "abc"), []).
Proof.
  apply (non_numeric_amount_fatal lower_ascii iso_datetime float_of_integer
           pie_recent bad_amount 0 2
           [({| year := 2024; month := 1; day := 5 |},
             [VStr "2024-01-05"; VStr "Zomato order"; VStr "-450"])]
           []
           ({| year := 2024; month := 1; day := 6 |},
            [VStr "2024-01-06"; VStr "Uber trip"; VStr "abc"])
           "abc").
  - reflexivity.
  - reflexivity.
  - vm_compute. reflexivity.
  - repeat constructor. eexists. vm_compute. reflexivity.
  - reflexivity.
  - reflexivity.
Defined.

(** Of two bad amounts it is the first that is reported. *)
Example first_bad_amount_reported :
  sample_run two_bad_amounts = (inl (ValueError "abc"), []).
Proof. vm_compute. reflexivity. Qed.

(** A row with its Date, Description and Amount present and a date that
    parses is dropped because the extra column Note is empty. *)
Lemma missing_extra_value_drops_row :
  sample_load missing_extra = inr [lunch_row]
  /\ nth 1 (rows missing_extra) []
     = [text "2024-01-06"; text "Uber trip"; num (-120); None]
  /\ columns missing_extra = ["Date"; "Description"; "Amount"; "Note"]
  /\ iso_datetime (VStr "2024-01-06")
     = Some {| year := 2024; month := 1; day := 6 |}.
Proof. repeat split; vm_compute; reflexivity. Qed.

Lemma rows_kept_iff_complete_witness :
  exists i,
    index_of "Date" (columns missing_extra) = Some i
    /\ map (fun r => map Some (Cells r)) [lunch_row]
       = filter (row_survives iso_datetime i) (rows missing_extra).
Proof.
  destruct (rows_kept_iff_complete lower_ascii iso_datetime float_of_integer
              missing_extra [lunch_row]) as [i [Hi [Hrows _]]].
  - vm_compute. reflexivity.
  - exists i. split; [exact Hi | exact Hrows].
Defined.

Lemma missing_column_fatal_witness :
  sample_run no_amount = (inl (KeyError "Amount"), []).
Proof.
  apply (missing_column_fatal lower_ascii iso_datetime float_of_integer
           pie_recent no_amount); reflexivity.
Defined.

(** Without a Description column and with a non-numeric amount, the run
    fails with the ValueError of the amount, not with a KeyError. *)
Lemma missing_description_value_error :
  has_column "Description" no_description_bad_amount = false
  /\ sample_run no_description_bad_amount = (inl (ValueError "abc"), []).
Proof. split; vm_compute; reflexivity. Qed.

(** The four-month example run end to end: one warning, and the months
    labelled as the detector example says. *)
Example four_months_run :
  exists a out,
    sample_run four_months = (inr a, out)
    /\ map snd (a_prediction a)
       = [WithinBudget; WithinBudget; WithinBudget; OverspendingRisk]
    /\ map (fun p => snd (fst p)) (a_prediction a)
       = [100%Q; 100%Q; 100%Q; 500%Q]
    /\ index (a_category_expense a) = [Shopping; Food; Transport; Utilities]
    /\ a_advice a = [advice_for Shopping; advice_for Food; advice_for Transport].
Proof. do 2 eexists. repeat split; vm_compute; reflexivity. Qed.

(* ================================================================== *)
(** * Properties of the binary64 model                                  *)
(* ================================================================== *)

(* ------------------------------------------------------------------ *)
(** ** The order of doubles                                             *)
(* ------------------------------------------------------------------ *)

Ltac key_case :=
  let K := fresh "K" in
  split; intros K;
  [ try discriminate K; cbn; lia | try reflexivity; exfalso; cbn in K; lia ].

(** IEEE comparison of two numbers is the lexicographic order of their
    keys. *)
Lemma SFleb_key (f1 f2 : spec_float) :
  is_nan_sf f1 = false -> is_nan_sf f2 = false ->
  (SFleb f1 f2 = true <-> key_le (sf_key f1) (sf_key f2)).
Proof.
  unfold SFleb, SFcompare.
  destruct f1 as [s1|s1| |s1 m1 e1], f2 as [s2|s2| |s2 m2 e2];
    try discriminate; intros _ _;
    try destruct s1; try destruct s2; cbn [sf_key key_le];
    try key_case.
  - destruct (Z.compare_spec e1 e2) as [E|E|E]; [|key_case|key_case].
    subst. rewrite Pos.compare_cont_spec. cbn [Pos.switch_Eq].
    destruct (Pos.compare_spec m1 m2); key_case.
  - destruct (Z.compare_spec e1 e2) as [E|E|E]; [|key_case|key_case].
    subst. rewrite Pos.compare_cont_spec. cbn [Pos.switch_Eq].
    destruct (Pos.compare_spec m1 m2); key_case.
Qed.

Lemma key_le_trans (a b c : Z * Z * Z) : key_le a b -> key_le b c -> key_le a c.
Proof. destruct a as [[? ?] ?], b as [[? ?] ?], c as [[? ?] ?]. cbn. lia. Qed.

Lemma key_le_total (a b : Z * Z * Z) : key_le a b \/ key_le b a.
Proof. destruct a as [[? ?] ?], b as [[? ?] ?]. cbn. lia. Qed.

Lemma is_nan_spec (x : float) : PrimFloat.is_nan x = is_nan_sf (Prim2SF x).
Proof.
  unfold PrimFloat.is_nan. rewrite eqb_spec. unfold SFeqb.
  destruct (Prim2SF x) as [s|s| |s m e] eqn:E; cbn; try reflexivity.
  - now destruct s.
  - destruct s; rewrite Z.compare_refl, Pos.compare_cont_refl; reflexivity.
Qed.

Lemma leb_not_nan (x y : float) :
  (x <=? y)%float = true ->
  PrimFloat.is_nan x = false /\ PrimFloat.is_nan y = false.
Proof.
  rewrite leb_spec, !is_nan_spec. unfold SFleb, SFcompare.
  destruct (Prim2SF x), (Prim2SF y); cbn; try discriminate; auto.
Qed.

Lemma leb_trans (x y z : float) :
  (x <=? y)%float = true -> (y <=? z)%float = true -> (x <=? z)%float = true.
Proof.
  intros H1 H2.
  destruct (leb_not_nan _ _ H1) as [Nx Ny].
  destruct (leb_not_nan _ _ H2) as [_ Nz].
  rewrite leb_spec in *. rewrite is_nan_spec in *.
  apply SFleb_key in H1; try assumption. apply SFleb_key in H2; try assumption.
  apply SFleb_key; try assumption. eapply key_le_trans; eassumption.
Qed.

Lemma leb_total (x y : float) :
  PrimFloat.is_nan x = false -> PrimFloat.is_nan y = false ->
  (x <=? y)%float = false -> (y <=? x)%float = true.
Proof.
  intros Nx Ny H. rewrite leb_spec in *. rewrite is_nan_spec in *.
  apply SFleb_key; try assumption.
  destruct (key_le_total (sf_key (Prim2SF x)) (sf_key (Prim2SF y))) as [K|K];
    [|exact K].
  apply SFleb_key in K; try assumption. congruence.
Qed.

Lemma is_nan_opp (x : float) : PrimFloat.is_nan (- x) = PrimFloat.is_nan x.
Proof. rewrite !is_nan_spec, opp_spec. now destruct (Prim2SF x). Qed.

Lemma leb_opp (x y : float) :
  (x <=? y)%float = true -> (- y <=? - x)%float = true.
Proof.
  intros H. destruct (leb_not_nan _ _ H) as [Nx Ny].
  rewrite leb_spec in *. rewrite is_nan_spec in *. rewrite !opp_spec.
  apply SFleb_key in H; try assumption.
  apply SFleb_key.
  - now destruct (Prim2SF y).
  - now destruct (Prim2SF x).
  - destruct (Prim2SF x) as [[|]|[|]| |[|] ? ?],
             (Prim2SF y) as [[|]|[|]| |[|] ? ?];
      try discriminate; cbn in *; lia.
Qed.

(* ------------------------------------------------------------------ *)
(** ** Sorting doubles                                                  *)
(* ------------------------------------------------------------------ *)

Section Sort64Facts.

Context {K : Type}.

Lemma sort_insert64_perm (e : K * float) (s : Series64 K) :
  Permutation (sort_insert64 e s) (e :: s).
Proof.
  induction s as [|e' s IH]; cbn [sort_insert64].
  - apply Permutation_refl.
  - destruct (snd e <=? snd e')%float.
    + apply Permutation_refl.
    + eapply perm_trans; [apply perm_skip, IH | apply perm_swap].
Qed.

Lemma insertion_sort64_perm (s : Series64 K) :
  Permutation (fold_right sort_insert64 [] s) s.
Proof.
  induction s as [|e s IH]; cbn [fold_right].
  - constructor.
  - eapply perm_trans; [apply sort_insert64_perm | now apply perm_skip].
Qed.

Lemma filter_split_perm {A : Type} (f : A -> bool) (l : list A) :
  Permutation (filter f l ++ filter (fun a => negb (f a)) l) l.
Proof.
  induction l as [|a l IH]; cbn [filter]; [constructor|].
  destruct (f a); cbn [negb app].
  - now apply perm_skip.
  - eapply perm_trans; [apply Permutation_sym, Permutation_middle|].
    now apply perm_skip.
Qed.

Lemma sort_values64_perm (s : Series64 K) : Permutation (sort_values64 s) s.
Proof.
  unfold sort_values64.
  eapply perm_trans; [|apply (filter_split_perm is_number)].
  apply Permutation_app_tail. apply insertion_sort64_perm.
Qed.

Lemma sort_insert64_ascending (e : K * float) (s : Series64 K) :
  is_number e = true ->
  Forall (fun a => is_number a = true) s ->
  StronglySorted (fun a b => (snd a <=? snd b)%float = true) s ->
  StronglySorted (fun a b => (snd a <=? snd b)%float = true)
    (sort_insert64 e s).
Proof.
  intros Ne. induction s as [|e' s IH]; cbn [sort_insert64]; intros Hn Hs.
  - repeat constructor.
  - inversion Hs as [|? ? Hrest Hall]; subst.
    inversion Hn as [|? ? Ne' Hn']; subst.
    destruct (snd e <=? snd e')%float eqn:E.
    + constructor; [exact Hs|]. constructor; [exact E|].
      eapply Forall_impl; [|exact Hall]. cbv beta.
      intros a Ha. now apply (leb_trans _ (snd e')).
    + assert ((snd e' <=? snd e)%float = true) as E'.
      { unfold is_number in Ne, Ne'. apply negb_true_iff in Ne, Ne'.
        now apply leb_total. }
      constructor; [now apply IH|].
      apply Forall_forall. intros a Hin.
      apply (Permutation_in _ (sort_insert64_perm e s)) in Hin.
      destruct Hin as [<-|Hin]; [exact E'|].
      rewrite Forall_forall in Hall. now apply Hall.
Qed.

Lemma insertion_sort64_ascending (s : Series64 K) :
  Forall (fun a => is_number a = true) s ->
  StronglySorted (fun a b => (snd a <=? snd b)%float = true)
    (fold_right sort_insert64 [] s).
Proof.
  induction 1 as [|e s Ne Hn IH]; cbn [fold_right]; [constructor|].
  apply sort_insert64_ascending; [exact Ne| |exact IH].
  apply Forall_forall. intros a Ha.
  apply (Permutation_in _ (insertion_sort64_perm s)) in Ha.
  rewrite Forall_forall in Hn. now apply Hn.
Qed.

Lemma StronglySorted_app {A : Type} (R : A -> A -> Prop) (l1 l2 : list A) :
  StronglySorted R l1 -> StronglySorted R l2 ->
  (forall a b, In a l1 -> In b l2 -> R a b) ->
  StronglySorted R (l1 ++ l2).
Proof.
  induction 1 as [|a l1 _ IH Hall]; intros H2 Hc; cbn [app]; [exact H2|].
  constructor.
  - apply IH; [exact H2|]. intros x y Hx Hy. apply Hc; [now right | exact Hy].
  - apply Forall_app. split; [exact Hall|].
    apply Forall_forall. intros y Hy. apply Hc; [now left | exact Hy].
Qed.

(** A sorted and negated series is ranked: numbers in descending order,
    not-a-number values last. *)
Lemma neg_sort_ranked (s : Series64 K) :
  StronglySorted (fun a b => ranked_before (snd a) (snd b))
    (neg_values64 (sort_values64 s)).
Proof.
  unfold sort_values64, neg_values64. rewrite map_app.
  assert (forall b, In b (map (fun e : K * float => (fst e, (- snd e)%float))
                            (filter (fun e => negb (is_number e)) s)) ->
                    PrimFloat.is_nan (snd b) = true) as Hnan.
  { intros b Hb. apply in_map_iff in Hb. destruct Hb as [e [<- He]].
    apply filter_In in He. destruct He as [_ He]. cbn [snd].
    rewrite is_nan_opp. unfold is_number in He.
    now rewrite negb_involutive in He. }
  apply StronglySorted_app.
  - assert (Forall (fun a : K * float => is_number a = true)
              (filter is_number s)) as Hn
      by (apply Forall_forall; intros a Ha; now apply filter_In in Ha).
    pose proof (insertion_sort64_ascending _ Hn) as Hs.
    induction Hs as [|a l _ IH Hall]; cbn [map]; constructor; [exact IH|].
    apply Forall_forall. intros b Hb. apply in_map_iff in Hb.
    destruct Hb as [b' [<- Hb']]. cbn [snd].
    rewrite Forall_forall in Hall. specialize (Hall b' Hb').
    right. split; [|now apply leb_opp].
    rewrite is_nan_opp. now apply leb_not_nan in Hall.
  - induction (filter (fun e => negb (is_number e)) s) as [|a l IH];
      cbn [map]; constructor.
    + apply IH. intros b Hb. apply Hnan. now right.
    + apply Forall_forall. intros b Hb. left. apply Hnan. now right.
  - intros a b _ Hb. left. now apply Hnan.
Qed.

End Sort64Facts.

(* ------------------------------------------------------------------ *)
(** ** Grouping doubles                                                 *)
(* ------------------------------------------------------------------ *)

Section GroupBy64Facts.

Context {K : Type}.
Variable rank : K -> Z.
Hypothesis rank_inj : forall a b, rank a = rank b -> a = b.

Lemma insert_key_in (k : K) (ks : list K) (k0 : K) :
  In k0 (insert_key rank k ks) <-> k0 = k \/ In k0 ks.
Proof.
  induction ks as [|k' ks IH]; cbn [insert_key In].
  - intuition.
  - destruct (Z.compare_spec (rank k) (rank k')) as [E|E|E]; cbn [In].
    + apply rank_inj in E. subst k'. intuition.
    + intuition.
    + rewrite IH. intuition.
Qed.

Lemma insert_key_ascending (k : K) (ks : list K) :
  StronglySorted (fun a b => (rank a < rank b)%Z) ks ->
  StronglySorted (fun a b => (rank a < rank b)%Z) (insert_key rank k ks).
Proof.
  induction ks as [|k' ks IH]; cbn [insert_key]; intros Hs.
  - repeat constructor.
  - inversion Hs as [|? ? Hrest Hall]; subst.
    destruct (Z.compare_spec (rank k) (rank k')) as [E|E|E].
    + exact Hs.
    + constructor; [exact Hs|]. constructor; [exact E|].
      eapply Forall_impl; [|exact Hall]. cbv beta. intros; lia.
    + constructor; [now apply IH|].
      apply Forall_forall. intros k0 Hin.
      apply insert_key_in in Hin. destruct Hin as [->|Hin]; [exact E|].
      rewrite Forall_forall in Hall. now apply Hall.
Qed.

Lemma group_keys_spec (l : list (K * float)) :
  StronglySorted (fun a b => (rank a < rank b)%Z) (group_keys rank l)
  /\ forall k, In k (group_keys rank l) <-> In k (map fst l).
Proof.
  unfold group_keys.
  assert (forall ks,
             StronglySorted (fun a b => (rank a < rank b)%Z) ks ->
             let r := fold_left (fun ks e => insert_key rank (fst e) ks) l ks in
             StronglySorted (fun a b => (rank a < rank b)%Z) r
             /\ forall k, In k r <-> In k (map fst l) \/ In k ks) as G.
  { induction l as [|e l IH]; intros ks Hks; cbn [fold_left map].
    - split; [exact Hks | cbn; intuition].
    - destruct (IH (insert_key rank (fst e) ks)
                  (insert_key_ascending _ _ Hks)) as [H1 H2].
      split; [exact H1|]. intros k. rewrite H2, insert_key_in.
      cbn [In]. intuition. }
  destruct (G [] (SSorted_nil _)) as [H1 H2].
  split; [exact H1|]. intros k. rewrite H2. cbn [In]. intuition.
Qed.

Lemma ascending_NoDup (ks : list K) :
  StronglySorted (fun a b => (rank a < rank b)%Z) ks -> NoDup ks.
Proof.
  induction 1 as [|k l _ IH Hall]; constructor; [|exact IH].
  intros Hin. rewrite Forall_forall in Hall. specialize (Hall k Hin). lia.
Qed.

(** The groups of distinct keys that cover a list partition it. *)
Lemma groups_partition (ks : list K) (l : list (K * float)) :
  NoDup ks ->
  (forall e, In e l -> In (fst e) ks) ->
  Permutation l
    (flat_map (fun k => filter (fun e => (rank (fst e) =? rank k)%Z) l) ks).
Proof.
  intros Hnd. revert l. induction Hnd as [|k ks Hnin _ IH]; intros l Hcov.
  - destruct l as [|e l]; [constructor|]. elim (Hcov e). now left.
  - cbn [flat_map].
    set (same := fun e : K * float => (rank (fst e) =? rank k)%Z).
    eapply perm_trans; [apply Permutation_sym, (filter_split_perm same)|].
    apply Permutation_app_head.
    eapply perm_trans;
      [apply (IH (filter (fun e => negb (same e)) l))|].
    + intros e He. apply filter_In in He. destruct He as [He Hk].
      destruct (Hcov e He) as [Heq|Hin]; [|exact Hin].
      unfold same in Hk. rewrite <- Heq, Z.eqb_refl in Hk. discriminate.
    + rewrite !flat_map_concat_map. apply Permutation_refl'. f_equal.
      apply map_ext_in. intros k' Hk'.
      clear - rank_inj Hnin Hk'. induction l as [|e l IHl]; [reflexivity|].
      cbn [filter]. unfold same at 1.
      destruct (Z.eqb_spec (rank (fst e)) (rank k)) as [E|E]; cbn [negb filter].
      * destruct (Z.eqb_spec (rank (fst e)) (rank k')) as [E'|_]; [|exact IHl].
        exfalso. apply Hnin. assert (k' = k) as <-; [|exact Hk'].
        apply rank_inj. congruence.
      * now rewrite IHl.
Qed.

Variable group_sum : list float -> float.

Lemma groupby_sum64_index (l : list (K * float)) :
  index64 (groupby_sum64 rank group_sum l) = group_keys rank l.
Proof.
  unfold index64, groupby_sum64. rewrite map_map. cbn [fst]. apply map_id.
Qed.

Lemma groupby_sum64_value (l : list (K * float)) (k : K) (v : float) :
  In (k, v) (groupby_sum64 rank group_sum l) ->
  v = group_sum (group_values rank k l).
Proof.
  unfold groupby_sum64. intros H. apply in_map_iff in H.
  destruct H as [k' [Heq _]]. now inversion Heq.
Qed.

End GroupBy64Facts.

(* ------------------------------------------------------------------ *)
(** ** The category series and the advisor                              *)
(* ------------------------------------------------------------------ *)

Lemma in_neg_values64 {K : Type} (k : K) (v : float) (s : Series64 K) :
  In (k, v) (neg_values64 s) ->
  exists v', In (k, v') s /\ v = (- v')%float.
Proof.
  unfold neg_values64. intros H. apply in_map_iff in H.
  destruct H as [[k' v'] [Heq Hin]]. cbn [fst snd] in Heq.
  inversion Heq; subst. now exists v'.
Qed.

Lemma index64_neg_values64 {K : Type} (s : Series64 K) :
  index64 (neg_values64 s) = index64 s.
Proof. unfold index64, neg_values64. rewrite map_map. reflexivity. Qed.

Section Category64Facts.

Variable group_sum : list float -> float.

Lemma category_expense64_perm (df : list Row64) :
  Permutation
    (category_expense64 group_sum df)
    (neg_values64
       (groupby_sum64 category_rank group_sum (expense_by_category df))).
Proof.
  unfold category_expense64, neg_values64. apply Permutation_map.
  apply sort_values64_perm.
Qed.

Lemma category_expense64_index (df : list Row64) :
  Permutation (index64 (category_expense64 group_sum df))
    (group_keys category_rank (expense_by_category df)).
Proof.
  unfold index64 at 1.
  rewrite (Permutation_map fst (category_expense64_perm df)).
  fold (index64 (neg_values64
          (groupby_sum64 category_rank group_sum (expense_by_category df)))).
  rewrite index64_neg_values64, groupby_sum64_index. reflexivity.
Qed.

Lemma category_expense64_value (df : list Row64) (c : category) (v : float) :
  In (c, v) (category_expense64 group_sum df) ->
  v = (- group_sum (group_values category_rank c (expense_by_category df)))%float.
Proof.
  intros H. apply (Permutation_in _ (category_expense64_perm df)) in H.
  apply in_neg_values64 in H. destruct H as [v' [Hin ->]].
  now rewrite (groupby_sum64_value _ _ _ _ _ Hin).
Qed.

Lemma category_expense64_categories (df : list Row64) :
  NoDup (index64 (category_expense64 group_sum df))
  /\ forall c, In c (index64 (category_expense64 group_sum df)) <->
               exists r, In r df /\ type_of64 (Amount64 r) = Expense
                         /\ Category64 r = c.
Proof.
  destruct (group_keys_spec category_rank category_rank_inj
              (expense_by_category df)) as [Hs Hk].
  pose proof (category_expense64_index df) as P. split.
  - apply (Permutation_NoDup (Permutation_sym P)).
    now apply (ascending_NoDup category_rank).
  - intros c. split.
    + intros Hin. apply (Permutation_in _ P), Hk in Hin.
      unfold expense_by_category in Hin. rewrite map_map in Hin.
      cbn [fst] in Hin. apply in_map_iff in Hin. destruct Hin as [r [Hc Hr]].
      apply filter_In in Hr. destruct Hr as [Hr He].
      exists r. repeat split; try assumption.
      unfold is_expense64 in He.
      destruct (type_of64 (Amount64 r)); [discriminate | reflexivity].
    + intros [r [Hr [He Hc]]].
      apply (Permutation_in _ (Permutation_sym P)), Hk.
      unfold expense_by_category. rewrite map_map. cbn [fst].
      apply in_map_iff. exists r. split; [exact Hc|].
      apply filter_In. split; [exact Hr|]. unfold is_expense64. now rewrite He.
Qed.

(** C5.  With [k] the number of categories in which the ledger has an
    expense row, the category series has one entry per such category, its
    value being the expense magnitude of the category: minus the group-by
    sum of the amounts of that category's expense rows.  The advisor
    selects the first [min 3 k] entries of the series ranked by descending
    magnitude, so that no category left out has a larger magnitude than a
    selected one, and gives exactly one tip per selected category, in rank
    order: the fixed text for Food, Shopping, Transport, Utilities and
    Entertainment, the template naming the category for the others.  With
    fewer than three categories it advises on as many as there are. *)
Theorem advice_top_three (df : list Row64) :
  let ce := category_expense64 group_sum df in
  let top := top_categories64 group_sum df in
  NoDup (index64 ce)
  /\ (forall c, In c (index64 ce) <->
                exists r, In r df /\ type_of64 (Amount64 r) = Expense
                          /\ Category64 r = c)
  /\ (forall c v, In (c, v) ce ->
        v = (- group_sum (group_values category_rank c
                            (expense_by_category df)))%float)
  /\ top = firstn 3 ce
  /\ length top = Nat.min 3 (length ce)
  /\ (forall a b, In a top -> In b (skipn 3 ce) ->
                  ranked_before (snd a) (snd b))
  /\ advice64 group_sum df = map advice_for (index64 top)
  /\ length (advice64 group_sum df) = Nat.min 3 (length ce)
  /\ advice_for Food
     = "🍔 You’re spending a lot on food. Try cooking at home more often or setting a monthly dining budget."
  /\ advice_for Shopping
     = "🛍️ High shopping bills detected. Consider limiting impulse buys or setting a wishlist before shopping."
  /\ advice_for Transport
     = "🚗 Transport costs are high. Try carpooling, using public transport, or optimizing your routes."
  /\ advice_for Utilities
     = "💡 Utilities seem high. Consider energy-saving habits or reviewing your internet/electricity plans."
  /\ advice_for Entertainment
     = "📺 Subscriptions and entertainment are adding up. Cancel unused subscriptions or switch to cheaper plans."
  /\ (forall c, c = Salary \/ c = Other ->
        advice_for c
        = "💡 Spending on **" ++ category_label c
            ++ "** is significant. Try to review if all those purchases were essential.").
Proof.
  cbv zeta. destruct (category_expense64_categories df) as [Hnd Hin].
  split; [exact Hnd|]. split; [exact Hin|].
  split; [intros c v; apply category_expense64_value|].
  split; [reflexivity|]. split; [apply length_firstn|].
  split.
  { intros a b Ha Hb.
    apply (sorted_firstn_skipn (fun a b => ranked_before (snd a) (snd b)) 3
             (category_expense64 group_sum df)); [|exact Ha|exact Hb].
    unfold category_expense64. apply neg_sort_ranked. }
  split; [reflexivity|]. split.
  { unfold advice64, index64. rewrite !length_map. apply length_firstn. }
  repeat split; try reflexivity.
  intros c [->| ->]; reflexivity.
Qed.

Section Total64Facts.

Variable series_sum : list float -> float.

(** C9, as the code has it.  The category groups partition the expense
    rows: the amounts of the groups of the category series, taken
    together, are a rearrangement of the amounts of all expense rows; each
    category value is minus the group-by sum of its group and the total
    expense is minus the Series sum of all expense amounts.  The two
    totals thus add the same numbers, in different orders and by
    different routines: they agree when addition is exact, as in the
    exact model, and need not agree in binary64. *)
Theorem category_groups_partition_expenses :
  (forall df : list Row64,
      Permutation
        (map Amount64 (expense_df64 df))
        (flat_map (fun c => group_values category_rank c (expense_by_category df))
           (index64 (category_expense64 group_sum df)))
      /\ (forall c v, In (c, v) (category_expense64 group_sum df) ->
            v = (- group_sum (group_values category_rank c
                                (expense_by_category df)))%float)
      /\ total_expense64 series_sum df
         = (- series_sum (map Amount64 (expense_df64 df)))%float)
  /\ (forall df : list Row,
        (total_expense df == sum (values (category_expense df)))%Q).
Proof.
  split; [|exact exact_total_is_category_sum].
  intros df. split; [|split; [intros c v; apply category_expense64_value
                             | reflexivity]].
  destruct (group_keys_spec category_rank category_rank_inj
              (expense_by_category df)) as [Hs Hk].
  eapply perm_trans;
    [|apply Permutation_flat_map, Permutation_sym, category_expense64_index].
  replace (map Amount64 (expense_df64 df))
    with (map snd (expense_by_category df))
    by (unfold expense_by_category; rewrite map_map; reflexivity).
  unfold group_values.
  assert (forall (f : category -> list (category * float)) ks,
             flat_map (fun c => map snd (f c)) ks = map snd (flat_map f ks))
    as Hfm.
  { intros f ks. induction ks as [|k ks IH]; [reflexivity|].
    cbn [flat_map]. now rewrite map_app, IH. }
  rewrite (Hfm (fun c => filter
                          (fun e => (category_rank (fst e) =? category_rank c)%Z)
                          (expense_by_category df))).
  apply Permutation_map.
  apply (groups_partition category_rank category_rank_inj).
  - now apply (ascending_NoDup category_rank).
  - intros e He. apply Hk. now apply in_map.
Qed.

End Total64Facts.

End Category64Facts.

(** In binary64 the total expense and the sum of the category values can
    differ: for three Food expenses of 0.1, 0.2 and 0.3 the Series sum,
    one addition after the other, gives 0.6000000000000001 and the
    compensated group sum gives 0.6. *)
Lemma total_expense_differs_in_binary64 :
  total_expense64 sum64 three_food_expenses = 0x1.3333333333334p-1%float
  /\ category_expense64 kahan_sum three_food_expenses
     = [(Food, 0x1.3333333333333p-1%float)]
  /\ sum64 (values64 (category_expense64 kahan_sum three_food_expenses))
     = 0x1.3333333333333p-1%float
  /\ (total_expense64 sum64 three_food_expenses
      =? sum64 (values64 (category_expense64 kahan_sum three_food_expenses)))%float
     = false.
Proof. repeat split; vm_compute; reflexivity. Qed.

(** The ranking of a ledger with four expense categories. *)
Example advice_of_mixed_ledger :
  index64 (category_expense64 kahan_sum mixed_ledger64)
  = [Shopping; Food; Transport; Utilities]
  /\ advice64 kahan_sum mixed_ledger64
     = [advice_for Shopping; advice_for Food; advice_for Transport].
Proof. split; vm_compute; reflexivity. Qed.

(* ------------------------------------------------------------------ *)
(** ** The overspending detector                                        *)
(* ------------------------------------------------------------------ *)

Section Detector64Facts.

Variable series_sum : list float -> float.

Lemma numbers_all (l : list float) :
  Forall (fun x => PrimFloat.is_nan x = false) l ->
  numbers l = l /\ fillna0 l = l.
Proof.
  unfold numbers, fillna0.
  induction 1 as [|x l Hx _ [IH1 IH2]]; cbn [filter map]; [now split|].
  rewrite Hx. cbn [negb]. now rewrite IH1, IH2.
Qed.

(** C2.  For every non-empty monthly series the detector computes one
    threshold in binary64, the mean of the values times 1.2 (for values
    that are all numbers, as monthly expenses are: their Series sum over
    their count, times 1.2), and labels every month against it alone: at
    risk exactly when its expense is strictly greater than the threshold,
    within budget otherwise.  For the expenses 100, 100, 100, 500, whose
    sum 800 is exact, the threshold is 240, the month with 500 is at risk
    and the other three are within budget. *)
Theorem detector_global_threshold :
  (forall monthly : Series64 Z,
      monthly <> [] ->
      let t := threshold64 series_sum monthly in
      t = (mean64 series_sum (values64 monthly) * one_point_two)%float
      /\ (Forall (fun x => PrimFloat.is_nan x = false) (values64 monthly) ->
          t = (series_sum (values64 monthly) / count64 monthly
               * one_point_two)%float)
      /\ prediction_df64 series_sum monthly
         = map (fun e => (fst e, snd e, status_of64 t (snd e))) monthly
      /\ forall m x st,
           In (m, x, st) (prediction_df64 series_sum monthly) ->
           (st = OverspendingRisk <-> (t <? x)%float = true)
           /\ (st = WithinBudget <-> (t <? x)%float = false))
  /\ (forall m1 m2 m3 m4 : Z,
        series_sum [100; 100; 100; 500]%float = 800%float ->
        let monthly := [(m1, 100); (m2, 100); (m3, 100); (m4, 500)]%float in
        threshold64 series_sum monthly = 240%float
        /\ prediction_df64 series_sum monthly
           = [(m1, 100%float, WithinBudget); (m2, 100%float, WithinBudget);
              (m3, 100%float, WithinBudget); (m4, 500%float, OverspendingRisk)]).
Proof.
  split.
  - intros monthly Hne. cbv zeta.
    split; [reflexivity|]. split; [|split; [reflexivity|]].
    + intros Hnum. unfold threshold64, mean64.
      destruct (numbers_all _ Hnum) as [-> ->].
      unfold values64, count64.
      destruct monthly as [|e monthly]; [congruence|].
      cbn [map length]. now rewrite length_map.
    + intros m x st Hin. unfold prediction_df64 in Hin.
      apply in_map_iff in Hin. destruct Hin as [e [He _]].
      inversion He; subst. unfold status_of64.
      destruct (_ <? snd e)%float; split; split; intros H;
        try reflexivity; try discriminate; congruence.
  - intros m1 m2 m3 m4 Hsum. cbv zeta.
    assert (threshold64 series_sum
              [(m1, 100); (m2, 100); (m3, 100); (m4, 500)]%float = 240%float)
      as Et.
    { unfold threshold64, mean64, values64. cbn [map snd].
      change (fillna0 [100; 100; 100; 500]%float) with [100; 100; 100; 500]%float.
      change (numbers [100; 100; 100; 500]%float) with [100; 100; 100; 500]%float.
      cbv iota. rewrite Hsum. vm_compute. reflexivity. }
    split; [exact Et|].
    unfold prediction_df64. rewrite Et. vm_compute. reflexivity.
Qed.

End Detector64Facts.

Lemma detector_global_threshold_witness :
  threshold64 sum64 [(648%Z, 100%float); (649%Z, 100%float); (650%Z, 100%float);
       (651%Z, 500%float)]
  = 240%float
  /\ prediction_df64 sum64
       [(648%Z, 100%float); (649%Z, 100%float); (650%Z, 100%float);
       (651%Z, 500%float)]
     = [(648%Z, 100%float, WithinBudget); (649%Z, 100%float, WithinBudget);
        (650%Z, 100%float, WithinBudget);
        (651%Z, 500%float, OverspendingRisk)].
Proof.
  apply (proj2 (detector_global_threshold sum64) 648%Z 649%Z 650%Z 651%Z).
  vm_compute. reflexivity.
Defined.

(** The rounding of the threshold decides: for 81, 254 and 300 the mean is
    211.66666666666666 and the threshold 253.99999999999997, just below
    254, so the month with 254 is at risk.  The empty series has a
    not-a-number threshold and an empty table; a not-a-number value is
    left out of the mean and is within budget. *)
Example detector_rounding :
  threshold64 sum64 [(648%Z, 81%float); (649%Z, 254%float); (650%Z, 300%float)]
  = 0x1.fbfffffffffffp+7%float
  /\ map snd (prediction_df64 sum64 [(648%Z, 81%float); (649%Z, 254%float); (650%Z, 300%float)])
     = [WithinBudget; OverspendingRisk; OverspendingRisk]
  /\ PrimFloat.is_nan (threshold64 sum64 []) = true
  /\ prediction_df64 sum64 [] = []
  /\ prediction_df64 sum64 [(648%Z, nan); (649%Z, 100%float)]
     = [(648%Z, nan, WithinBudget); (649%Z, 100%float, WithinBudget)].
Proof. repeat split; vm_compute; reflexivity. Qed.

(* ================================================================== *)
(** * Further properties of the script                                  *)
(* ================================================================== *)

(* ------------------------------------------------------------------ *)
(** ** The categorizer: more text never lowers the precedence           *)
(* ------------------------------------------------------------------ *)

Lemma contains_trans (a b c : string) :
  contains a b = true -> contains b c = true -> contains a c = true.
Proof.
  intros Hab Hbc.
  apply contains_substring in Hab. destruct Hab as [p [q Hb]].
  apply contains_substring in Hbc. destruct Hbc as [p' [q' Hc]].
  apply contains_substring. exists (p' ++ p), (q ++ q').
  rewrite Hc, Hb.
  clear. induction p' as [|x p' IH]; simpl.
  - induction p as [|y p IHp]; simpl.
    + induction a as [|z a IHa]; simpl; [reflexivity | now rewrite IHa].
    + now rewrite IHp.
  - now rewrite IH.
Qed.

Lemma group_matches_mono (t t' : string) (g : category * list string) :
  contains t t' = true ->
  group_matches t g = true -> group_matches t' g = true.
Proof.
  intros Htt. unfold group_matches. rewrite !existsb_exists.
  intros [kw [Hin Hkw]]. exists kw. split; [exact Hin|].
  now apply (contains_trans kw t t').
Qed.

Lemma match_pos_mono (groups : list (category * list string)) (t t' : string) :
  contains t t' = true -> (match_pos groups t' <= match_pos groups t)%nat.
Proof.
  intros Htt. induction groups as [|g groups IH]; cbn [match_pos]; [lia|].
  destruct (group_matches t g) eqn:E.
  - rewrite (group_matches_mono t t' g Htt E). lia.
  - destruct (group_matches t' g); lia.
Qed.

Lemma precedence_match_pos (t : string) :
  precedence (first_match taxonomy t) = match_pos taxonomy t.
Proof.
  unfold first_match, taxonomy. cbn [find match_pos].
  repeat match goal with
         | |- context [group_matches t ?g] =>
             destruct (group_matches t g); [reflexivity|]
         end.
  reflexivity.
Qed.

(** X1.  When the lower-cased text of one description occurs inside the
    lower-cased text of another, the longer one is categorized no later in
    the precedence order: added text can move a description to an earlier
    group, never to a later one. *)
Theorem categorize_more_text_earlier
    (str_lower : string -> string) (d d' : string) :
  contains (str_lower d) (str_lower d') = true ->
  (precedence (categorize str_lower d')
   <= precedence (categorize str_lower d))%nat.
Proof.
  intros H. rewrite !categorize_refines. unfold categorize_spec.
  rewrite !precedence_match_pos. now apply match_pos_mono.
Qed.

Lemma categorize_more_text_earlier_witness :
  (precedence (categorize lower_ascii "Zomato order, paid by Uber credit")
   <= precedence (categorize lower_ascii "Uber"))%nat.
Proof.
  apply (categorize_more_text_earlier lower_ascii "Uber"
           "Zomato order, paid by Uber credit").
  vm_compute. reflexivity.
Defined.

(* ------------------------------------------------------------------ *)
(** ** The totals                                                       *)
(* ------------------------------------------------------------------ *)

Section TotalsFacts.

Variable str_lower : string -> string.
Variable to_datetime : value -> option Timestamp.
Variable to_float : string -> option Q.



End TotalsFacts.


(* ------------------------------------------------------------------ *)
(** ** The months and the category series                               *)
(* ------------------------------------------------------------------ *)


(** X5.  The months of the monthly series are in strictly ascending order,
    hence without repetition, and a month is present exactly when some
    expense row falls in it; the overspending table lists the same months
    in the same order. *)
Theorem monthly_expense_months (df : list Row) :
  StronglySorted Z.lt (index (monthly_expense df))
  /\ (forall m, In m (index (monthly_expense df)) <->
                exists r, In r df /\ Type_ r = Expense /\ YearMonth r = m)
  /\ map (fun p => fst (fst p)) (prediction_df (monthly_expense df))
     = index (monthly_expense df).
Proof.
  unfold monthly_expense. rewrite index_neg_values.
  destruct (groupby_sum_keys (fun m : Z => m) (fun a b H => H)
              (map (fun r => (YearMonth r, Amount r)) (expense_df df)))
    as [Hs Hk].
  split; [exact Hs|]. split.
  - intros m. rewrite Hk, map_map. cbn [fst]. rewrite in_map_iff.
    unfold expense_df. split.
    + intros [r [Hm Hr]]. apply filter_In in Hr. destruct Hr as [Hr He].
      exists r. repeat split; try assumption.
      unfold is_expense in He. destruct (Type_ r); [discriminate|reflexivity].
    + intros [r [Hr [He Hm]]]. exists r. split; [exact Hm|].
      apply filter_In. split; [exact Hr|]. unfold is_expense. now rewrite He.
  - unfold prediction_df, index, neg_values. rewrite !map_map. cbn [fst].
    reflexivity.
Qed.

Section PieFacts.

Variable str_lower : string -> string.
Variable to_datetime : value -> option Timestamp.
Variable to_float : string -> option Q.


End PieFacts.


(* ------------------------------------------------------------------ *)
(** ** The detector on equal months                                     *)
(* ------------------------------------------------------------------ *)




(* ------------------------------------------------------------------ *)
(** ** The tips                                                         *)
(* ------------------------------------------------------------------ *)

Lemma advice_for_inj (a b : category) : advice_for a = advice_for b -> a = b.
Proof.
  intros H. apply String.eqb_eq in H.
  destruct a, b; try reflexivity; vm_compute in H; discriminate H.
Qed.

Lemma NoDup_map_inj {A B : Type} (f : A -> B) (l : list A) :
  (forall a b, f a = f b -> a = b) -> NoDup l -> NoDup (map f l).
Proof.
  intros Hf. induction 1 as [|a l Hnin _ IH]; cbn [map]; constructor.
  - intros Hin. apply in_map_iff in Hin. destruct Hin as [b [Hb Hin]].
    apply Hf in Hb. now subst b.
  - exact IH.
Qed.

(** X12.  The advice list holds at most three tips, no tip twice, and
    every tip is the tip of a category in which the ledger has an expense
    row. *)
Theorem advice_distinct_at_most_three
    (group_sum : list float -> float) (df : list Row64) :
  NoDup (advice64 group_sum df)
  /\ (length (advice64 group_sum df) <= 3)%nat
  /\ forall tip, In tip (advice64 group_sum df) ->
       exists r, In r df /\ type_of64 (Amount64 r) = Expense
                 /\ tip = advice_for (Category64 r).
Proof.
  destruct (category_expense64_categories group_sum df) as [Hnd Hin].
  assert (forall c, In c (index64 (top_categories64 group_sum df)) ->
                    In c (index64 (category_expense64 group_sum df))) as Hsub.
  { intros c Hc. unfold top_categories64, index64 in *.
    rewrite <- (firstn_skipn 3 (category_expense64 group_sum df)), map_app.
    apply in_or_app. now left. }
  split; [|split].
  - unfold advice64. apply NoDup_map_inj; [exact advice_for_inj|].
    unfold top_categories64, index64. rewrite <- firstn_map.
    unfold index64 in Hnd.
    rewrite <- (firstn_skipn 3 (map fst (category_expense64 group_sum df)))
      in Hnd.
    now apply NoDup_app_remove_r in Hnd.
  - unfold advice64, index64, top_categories64. rewrite !length_map.
    apply firstn_le_length.
  - intros tip Ht. unfold advice64 in Ht. apply in_map_iff in Ht.
    destruct Ht as [c [<- Hc]]. apply Hsub, Hin in Hc.
    destruct Hc as [r [Hr [He Hcat]]]. exists r. now rewrite Hcat.
Qed.

(* ------------------------------------------------------------------ *)
(** ** When the load succeeds                                           *)
(* ------------------------------------------------------------------ *)

Section LoadOutcome.

Variable str_lower : string -> string.
Variable to_datetime : value -> option Timestamp.
Variable to_float : string -> option Q.
Variable ax_pie : Series category -> option exn.

(** The two column conversions succeed on a list of rows exactly when
    every row has a convertible amount and a textual description. *)
Lemma conversions_succeed (j k : nat) (l : list (Timestamp * list value)) :
  (exists mid df, mapM (with_amount to_float j) l = inr mid
                  /\ mapM (with_category str_lower k) mid = inr df)
  <-> Forall (fun e =>
                (exists x, astype_float to_float (at_col j (snd e)) = inr x)
                /\ (exists s, at_col k (snd e) = VStr s)) l.
Proof.
  induction l as [|[d r] l IH]; cbn [mapM].
  - split; [constructor|]. intros _. exists [], []. split; reflexivity.
  - unfold with_amount at 1. cbn [snd].
    destruct (astype_float to_float (at_col j r)) as [err|x] eqn:Ea.
    + split.
      * intros [mid [df [Hm _]]]. discriminate.
      * intros Hall. inversion Hall as [|? ? [[x Hx] _] _]; subst.
        cbn [snd] in Hx. congruence.
    + split.
      * intros [mid [df [Hm Hc]]].
        destruct (mapM (with_amount to_float j) l) as [err|mid'] eqn:El;
          [discriminate|].
        inversion Hm; subst mid. cbn [mapM] in Hc.
        unfold with_category at 1 in Hc.
        destruct (at_col k r) as [s|y] eqn:Ek; [|discriminate].
        destruct (mapM (with_category str_lower k) mid') as [err|df'] eqn:Ec;
          [discriminate|].
        constructor.
        -- cbn [snd]. split; [now exists x | now exists s].
        -- apply IH. now exists mid', df'.
      * intros Hall. inversion Hall as [|? ? [_ [s Hs]] Hrest]; subst.
        cbn [snd] in Hs.
        apply IH in Hrest. destruct Hrest as [mid [df [Hm Hc]]].
        rewrite Hm. eexists. eexists. split; [reflexivity|].
        cbn [mapM]. unfold with_category at 1. rewrite Hs, Hc. reflexivity.
Qed.

(** X13.  The load succeeds exactly when the table has the three columns
    Date, Amount and Description and, in every row that passes the
    missing-value and date filters, the amount converts to a number and
    the description is text. *)
Theorem load_succeeds_iff (raw : DataFrame) :
  (exists df, load str_lower to_datetime to_float raw = inr df)
  <-> exists i j k,
        index_of "Date" (columns raw) = Some i
        /\ index_of "Amount" (columns raw) = Some j
        /\ index_of "Description" (columns raw) = Some k
        /\ Forall (fun e =>
                     (exists x, astype_float to_float (at_col j (snd e)) = inr x)
                     /\ (exists s, at_col k (snd e) = VStr s))
             (dropna_date to_datetime i (dropna (rows raw))).
Proof.
  split.
  - intros [df H].
    destruct (load_inr _ _ _ _ _ H) as [i [j [k [mid [Hi [Hj [Hk [Hm Hc]]]]]]]].
    exists i, j, k. repeat split; try assumption.
    apply conversions_succeed. now exists mid, df.
  - intros [i [j [k [Hi [Hj [Hk Hall]]]]]].
    apply conversions_succeed in Hall. destruct Hall as [mid [df [Hm Hc]]].
    exists df. unfold load, column_index. now rewrite Hi, Hj, Hm, Hk.
Qed.

Lemma Forall2_in_left {A B : Type} (R : A -> B -> Prop) (l : list A)
    (l' : list B) (a : A) :
  Forall2 R l l' -> In a l -> exists b, In b l' /\ R a b.
Proof.
  induction 1 as [|x y l l' Hxy _ IH]; intros Hin; [contradiction|].
  destruct Hin as [->|Hin].
  - exists y. split; [now left | exact Hxy].
  - destruct (IH Hin) as [b [Hb HR]]. exists b. split; [now right | exact HR].
Qed.

(** X15.  When the three columns are present and every amount converts,
    a number in the Description column of a row that passes the filters
    makes [categorize] fail on [.lower()]: the run ends with
    AttributeError before any output. *)
Theorem numeric_description_fatal (raw : DataFrame) (i j k : nat) :
  index_of "Date" (columns raw) = Some i ->
  index_of "Amount" (columns raw) = Some j ->
  index_of "Description" (columns raw) = Some k ->
  Forall (fun e => exists x, astype_float to_float (at_col j (snd e)) = inr x)
    (dropna_date to_datetime i (dropna (rows raw))) ->
  (exists e x, In e (dropna_date to_datetime i (dropna (rows raw)))
               /\ at_col k (snd e) = VNum x) ->
  load str_lower to_datetime to_float raw = inl AttributeError
  /\ run str_lower to_datetime to_float ax_pie raw = (inl AttributeError, []).
Proof.
  intros Hi Hj Hk Hall [e [x [Hin Hx]]].
  destruct (mapM_total (with_amount to_float j)
              (dropna_date to_datetime i (dropna (rows raw)))) as [mid Hm].
  { eapply Forall_impl; [|exact Hall]. cbv beta.
    intros a [y Hy]. unfold with_amount. rewrite Hy. now eexists. }
  pose proof (mapM_inr _ _ _ Hm) as F2.
  destruct (Forall2_in_left _ _ _ e F2 Hin) as [e' [Hin' He']].
  apply with_amount_row in He'. destruct He' as [He' _].
  destruct (mapM_inl (with_category str_lower k) mid) as [a [err [_ [Ha Hc]]]].
  { exists e', AttributeError. split; [exact Hin'|].
    destruct e' as [[d r] y]. cbn [fst] in He'. subst e. cbn [snd] in Hx.
    unfold with_category. now rewrite Hx. }
  assert (err = AttributeError) as ->.
  { destruct a as [[d r] y]. unfold with_category in Ha.
    destruct (at_col k r); [discriminate | now inversion Ha]. }
  assert (load str_lower to_datetime to_float raw = inl AttributeError) as Hl.
  { unfold load, column_index. now rewrite Hi, Hj, Hm, Hk. }
  split; [exact Hl | now apply run_inl].
Qed.

End LoadOutcome.

Lemma numeric_description_fatal_witness :
  sample_load numeric_description = inl AttributeError
  /\ sample_run numeric_description = (inl AttributeError, []).
Proof.
  apply (numeric_description_fatal lower_ascii iso_datetime float_of_integer
           pie_recent numeric_description 0 2 1).
  - reflexivity.
  - reflexivity.
  - reflexivity.
  - vm_compute. repeat constructor. now eexists.
  - exists ({| year := 2024; month := 1; day := 5 |},
            [VStr "2024-01-05"; VNum (inject_Z 42); VNum (inject_Z (-450))]),
           (inject_Z 42).
    vm_compute. auto.
Defined.

(* ------------------------------------------------------------------ *)
(** ** The categorizer: a label needs one of its keywords               *)
(* ------------------------------------------------------------------ *)

(** X16.  A description gets the label of a keyword group only if one of
    that group's keywords occurs in its lower-cased text and no keyword of
    a group earlier in the precedence order does. *)
Theorem categorize_label_needs_keyword
    (str_lower : string -> string) (d : string) (g : category * list string) :
  In g taxonomy ->
  categorize str_lower d = fst g ->
  group_matches (str_lower d) g = true
  /\ forall g', In g' taxonomy ->
                (precedence (fst g') < precedence (fst g))%nat ->
                group_matches (str_lower d) g' = false.
Proof.
  intros Hg. rewrite categorize_refines.
  unfold categorize_spec, first_match, taxonomy in *. cbn [find].
  cbn [In] in Hg.
  repeat match goal with
         | |- context [if group_matches ?t ?h then _ else _] =>
             let E := fresh "E" in destruct (group_matches t h) eqn:E
         end;
    cbn [fst]; intros Hc;
    repeat (destruct Hg as [<-|Hg]; [try discriminate Hc|]);
    try contradiction;
    (split; [assumption|]);
    intros g' Hg' Hlt; cbn [In] in Hg';
    repeat (destruct Hg' as [<-|Hg']; [try assumption; cbn in Hlt; lia|]);
    contradiction.
Qed.

Lemma categorize_label_needs_keyword_witness :
  group_matches (lower_ascii "Electricity BILL for May")
    (Utilities, ["electricity"; "bill"; "internet"]) = true
  /\ forall g', In g' taxonomy ->
                (precedence (fst g') < precedence Utilities)%nat ->
                group_matches (lower_ascii "Electricity BILL for May") g' = false.
Proof.
  apply (categorize_label_needs_keyword lower_ascii "Electricity BILL for May"
           (Utilities, ["electricity"; "bill"; "internet"])).
  - simpl. auto.
  - vm_compute. reflexivity.
Defined.
